(** * Oniric backend: authentication middleware and owner-scoped routes

    A shallow embedding of the Express middleware [auth] / [optionalAuth]
    (api/middleware/auth.ts), of [getUserById] (api/lib/supabase.ts), of the
    error handler (api/middleware/errorHandler.ts) and of the route handlers
    of api/routes/{dreams,subscriptions,profile}.ts that read or mutate
    owned rows.

    The collaborators that are not part of the repository (the jsonwebtoken
    library and the Supabase/PostgREST client) are effects of a small
    program monad; a [World] interprets them. *)

From stdpp Require Import base option list strings gmap fin_maps.
From Stdlib Require Import Ascii ZArith Lia.

Open Scope string_scope.
Open Scope list_scope.

(* ===================================================================== *)
(** ** JavaScript values *)
(* ===================================================================== *)

Module Js.

(** Scalar JSON values, as they occur in token payloads, request bodies and
    table columns.  A missing property ([undefined]) is [None] at the type
    [option JsVal]. *)
Inductive JsVal : Type :=
| VNull
| VBool (b : bool)
| VNum (z : Z)
| VStr (s : string).

#[global] Instance JsVal_eq_dec : EqDecision JsVal.
Proof. solve_decision. Defined.

(** A JavaScript object with scalar properties. *)
Abbreviation Row := (gmap string JsVal).

(** [!!v] is [false]: the truthiness of a possibly missing property. *)
Definition truthy (v : option JsVal) : bool :=
  match v with
  | None => false
  | Some VNull => false
  | Some (VBool b) => b
  | Some (VNum z) => negb (Z.eqb z 0)
  | Some (VStr s) => negb (String.eqb s "")
  end.

(** [a === b] on scalars and [undefined]. *)
Definition strict_eq (a b : option JsVal) : bool := bool_decide (a = b).

(** [s.startsWith(p)] *)
Definition startsWith (p s : string) : bool := String.prefix p s.

(** [s.includes(p)] *)
Fixpoint includes (p s : string) : bool :=
  String.prefix p s ||
  match s with
  | EmptyString => false
  | String _ s' => includes p s'
  end.

(** [s.split(sep)] for a one-character separator. *)
Fixpoint split (sep : Ascii.ascii) (s : string) : list string :=
  match s with
  | EmptyString => [EmptyString]
  | String c s' =>
      if Ascii.eqb c sep then EmptyString :: split sep s'
      else match split sep s' with
           | [] => [String c EmptyString]
           | w :: ws => String c w :: ws
           end
  end.

(** Truthiness of a string that may be [undefined]. *)
Definition truthy_str (s : option string) : bool :=
  match s with
  | None => false
  | Some s => negb (String.eqb s "")
  end.

End Js.
Export Js.

(* ===================================================================== *)
(** ** Errors and the global error handler *)
(* ===================================================================== *)

(** [ApiError] carries a status code; a plain [Error] (or a [TypeError]
    raised by the runtime) does not. *)
Inductive Err : Type :=
| ApiError (statusCode : nat) (message : string)
| Error (message : string).

#[global] Instance Err_eq_dec : EqDecision Err.
Proof. solve_decision. Defined.

(** errorHandler: ['statusCode' in err ? err.statusCode : 500]. *)
Definition errorHandler_status (err : Err) : nat :=
  match err with
  | ApiError statusCode _ => statusCode
  | Error _ => 500
  end.

(** errorHandler: [err.message || 'Something went wrong']. *)
Definition errorHandler_message (err : Err) : string :=
  let m := match err with ApiError _ m => m | Error m => m end in
  if String.eqb m "" then "Something went wrong" else m.

(* ===================================================================== *)
(** ** The collaborators: jsonwebtoken and the datastore client *)
(* ===================================================================== *)

(** The result of [jwt.decode(token)]: [null], a string payload, or an
    object payload. *)
Inductive Decoded : Type :=
| DecNull
| DecString (s : string)
| DecObject (payload : Row).

(** A PostgREST error object. *)
Record PgError : Type := mkPgError { code : string; pg_message : string }.

(** The calls the code makes on the datastore client.  The value compared
    by [.eq] may be [undefined]. *)
Inductive StoreOp : Type :=
| SelectSingle (table col : string) (v : option JsVal)
    (* .from(table).select(..).eq(col, v).single() *)
| InsertReturning (table : string) (row : Row)
    (* .from(table).insert([row]).select().single() *)
| Update (table : string) (patch : Row) (col : string) (v : option JsVal)
         (returning : bool)
    (* .from(table).update(patch).eq(col, v) [.select().single()] *)
| UpdateArray (table : string) (payload : list Row) (col : string)
              (v : option JsVal) (returning : bool)
    (* the same call when the value passed to .update is an array *)
| Delete (table col : string) (v : option JsVal).
    (* .from(table).delete().eq(col, v) *)

(** Whether a call asks the datastore to change rows. *)
Definition is_mutation (op : StoreOp) : bool :=
  match op with
  | SelectSingle _ _ _ => false
  | _ => true
  end.

(** [{ data, error }] of a single-row call. *)
Record Resp : Type := mkResp { data : option Row; error : option PgError }.

(** [{ data, error, count }] of a multi-row select. *)
Record RespMany : Type :=
  mkRespMany { rows : option (list Row); rows_error : option PgError;
               count : option Z }.

(** What a request did to the outside world. *)
Inductive Event : Type :=
| EvDecode (token : string)
| EvVerify (token secret : string)
| EvQuery (op : StoreOp)
| EvQueryMany (table col : string) (v : option JsVal).

(** Programs over the collaborators. *)
Inductive Prog (A : Type) : Type :=
| Ret (a : A)
| JwtDecode (token : string) (k : Decoded -> Prog A)
| JwtVerify (token secret : string) (k : bool -> Prog A)
| Query (op : StoreOp) (k : Resp -> Prog A)
| QueryMany (table col : string) (v : option JsVal) (k : RespMany -> Prog A).

Arguments Ret {A} a.
Arguments JwtDecode {A} token k.
Arguments JwtVerify {A} token secret k.
Arguments Query {A} op k.
Arguments QueryMany {A} table col v k.

Fixpoint bind {A B : Type} (m : Prog A) (f : A -> Prog B) : Prog B :=
  match m with
  | Ret a => f a
  | JwtDecode t k => JwtDecode t (fun d => bind (k d) f)
  | JwtVerify t s k => JwtVerify t s (fun b => bind (k b) f)
  | Query op k => Query op (fun r => bind (k r) f)
  | QueryMany t c v k => QueryMany t c v (fun r => bind (k r) f)
  end.

Declare Scope prog_scope.
Delimit Scope prog_scope with prog.
Notation "x <- m ;; k" := (bind m (fun x => k))
  (at level 100, m at next level, right associativity) : prog_scope.
Open Scope prog_scope.

(** A computation that may throw: [inl e] is a thrown error. *)
Abbreviation Exn A := (Err + A)%type.

Definition throw {A : Type} (e : Err) : Prog (Exn A) := Ret (inl e).
Definition ok {A : Type} (a : A) : Prog (Exn A) := Ret (inr a).

(** Sequencing that stops at the first throw. *)
Definition bindE {A B : Type} (m : Prog (Exn A)) (f : A -> Prog (Exn B))
  : Prog (Exn B) :=
  r <- m ;; match r with inl e => Ret (inl e) | inr a => f a end.

(** [try { m } catch (e) { h e }] *)
Definition try_catch {A : Type} (m : Prog (Exn A)) (h : Err -> Prog (Exn A))
  : Prog (Exn A) :=
  r <- m ;; match r with inl e => h e | inr a => Ret (inr a) end.

Notation "x <-! m ;; k" := (bindE m (fun x => k))
  (at level 100, m at next level, right associativity) : prog_scope.

(** An interpretation of the collaborators over a datastore state [S]. *)
Record World (S : Type) : Type := mkWorld {
  jwt_decode : string -> Decoded;
  jwt_verify : string -> string -> bool;
  store : S -> StoreOp -> Resp * S;
  store_many : S -> string -> string -> option JsVal -> RespMany * S
}.
Arguments mkWorld {S}.
Arguments jwt_decode {S}.
Arguments jwt_verify {S}.
Arguments store {S}.
Arguments store_many {S}.

(** Running a program: the result, the final datastore state and the
    events in the order they happened. *)
Fixpoint run {S A : Type} (w : World S) (m : Prog A) (s : S)
  : A * S * list Event :=
  match m with
  | Ret a => (a, s, [])
  | JwtDecode t k =>
      let '(a, s', tr) := run w (k (jwt_decode w t)) s in
      (a, s', EvDecode t :: tr)
  | JwtVerify t sec k =>
      let '(a, s', tr) := run w (k (jwt_verify w t sec)) s in
      (a, s', EvVerify t sec :: tr)
  | Query op k =>
      let '(r, s1) := store w s op in
      let '(a, s', tr) := run w (k r) s1 in
      (a, s', EvQuery op :: tr)
  | QueryMany t c v k =>
      let '(r, s1) := store_many w s t c v in
      let '(a, s', tr) := run w (k r) s1 in
      (a, s', EvQueryMany t c v :: tr)
  end.

(* ===================================================================== *)
(** ** Request authentication (api/middleware/auth.ts) *)
(* ===================================================================== *)

(** The two signing secrets of [process.env]. *)
Record Env : Type := mkEnv {
  SUPABASE_JWT_SECRET : option string;
  JWT_SECRET : option string
}.

(** The part of the Express request the middleware reads and writes:
    [req.headers.authorization], [req.user], [req.userId]. *)
Record Req : Type := mkReq {
  authorization : option string;
  user : option Row;
  userId : option JsVal
}.

(** A request as Express creates it: no identity attached. *)
Definition fresh (authHeader : option string) : Req :=
  mkReq authHeader None None.

(** api/lib/supabase.ts, [getUserById]: a point lookup in [profiles];
    any error of the client is thrown, otherwise [data] is returned as is
    (a row, or [null]). *)
Definition getUserById (userId : option JsVal) : Prog (Exn (option Row)) :=
  Query (SelectSingle "profiles" "id" userId) (fun r =>
    match error r with
    | Some e => throw (Error ("Error fetching user: " ++ pg_message e))
    | None => ok (data r)
    end).

(** The error [jwt.verify] throws; its message is never read by the code. *)
Definition JsonWebTokenError : Err := Error "JsonWebTokenError".

(** [auth]: the strict middleware.  The result is the request as the next
    stage sees it and the argument of [next]. *)
Definition auth (env : Env) (req : Req) : Prog (Req * option Err) :=
  r <-
    match authorization req with
    | None => throw (ApiError 401 "Authorization token required")
    | Some authHeader =>
      if String.eqb authHeader "" || negb (startsWith "Bearer " authHeader)
      then throw (ApiError 401 "Authorization token required")
      else
        let token := split " "%char authHeader !! 1%nat in
        match token with
        | None => throw (ApiError 401 "Authorization token required")
        | Some token =>
          if String.eqb token ""
          then throw (ApiError 401 "Authorization token required")
          else
            try_catch
              (userId <-!
                 JwtDecode token (fun decodedToken =>
                   match decodedToken with
                   | DecNull => throw (Error "Invalid token format")
                   | DecString _ => throw (Error "Invalid token format")
                   | DecObject payload =>
                     if truthy (payload !! "sub") then
                       match SUPABASE_JWT_SECRET env with
                       | None =>
                           throw (ApiError 500 "Supabase JWT secret not configured")
                       | Some supabaseJwtSecret =>
                         if String.eqb supabaseJwtSecret ""
                         then throw (ApiError 500 "Supabase JWT secret not configured")
                         else
                           try_catch
                             (JwtVerify token supabaseJwtSecret (fun valid =>
                                if valid then ok (payload !! "sub")
                                else throw JsonWebTokenError))
                             (fun _ =>
                                throw (ApiError 401 "Invalid or expired Supabase token"))
                       end
                     else if truthy (payload !! "id") then
                       match JWT_SECRET env with
                       | None => throw (ApiError 500 "JWT secret not configured")
                       | Some jwtSecret =>
                         if String.eqb jwtSecret ""
                         then throw (ApiError 500 "JWT secret not configured")
                         else
                           JwtVerify token jwtSecret (fun valid =>
                             if valid then ok (payload !! "id")
                             else throw JsonWebTokenError)
                       end
                     else throw (Error "Invalid token payload")
                   end) ;;
               found <-! getUserById userId ;;
               match found with
               | None => throw (ApiError 401 "User not found")
               | Some u => ok (mkReq (authorization req) (Some u) (u !! "id"))
               end)
              (fun _ => throw (ApiError 401 "Invalid or expired token"))
        end
    end ;;
  match r with
  | inl error => Ret (req, Some error)
  | inr req' => Ret (req', None)
  end.

(** [optionalAuth]: the lenient middleware.  Every [return next()] leaves
    the request as it was. *)
Definition optionalAuth (env : Env) (req : Req) : Prog (Req * option Err) :=
  match authorization req with
  | None => Ret (req, None)
  | Some authHeader =>
    if String.eqb authHeader "" || negb (startsWith "Bearer " authHeader)
    then Ret (req, None)
    else
      let token := split " "%char authHeader !! 1%nat in
      match token with
      | None => Ret (req, None)
      | Some token =>
        if String.eqb token "" then Ret (req, None)
        else
          r <-
            JwtDecode token (fun decodedToken =>
              match decodedToken with
              | DecNull => ok req
              | DecString _ => ok req
              | DecObject payload =>
                let lookup userId :=
                  found <-! getUserById userId ;;
                  match found with
                  | Some u => ok (mkReq (authorization req) (Some u) (u !! "id"))
                  | None => ok req
                  end in
                if truthy (payload !! "sub") then lookup (payload !! "sub")
                else if truthy (payload !! "id") then
                  match JWT_SECRET env with
                  | None => ok req
                  | Some jwtSecret =>
                    if String.eqb jwtSecret "" then ok req
                    else
                      JwtVerify token jwtSecret (fun valid =>
                        if valid then lookup (payload !! "id") else ok req)
                  end
                else ok req
              end) ;;
          match r with
          | inl _ => Ret (req, None)
          | inr req' => Ret (req', None)
          end
      end
  end.

(** The earlier single-issuer middleware (dist/middleware/auth.js), kept
    for comparison: the secret is read before the inner [try]. *)
Module Legacy.

Definition auth (env : Env) (req : Req) : Prog (Req * option Err) :=
  r <-
    match authorization req with
    | None => throw (ApiError 401 "Authorization token required")
    | Some authHeader =>
      if String.eqb authHeader "" || negb (startsWith "Bearer " authHeader)
      then throw (ApiError 401 "Authorization token required")
      else
        match split " "%char authHeader !! 1%nat with
        | None => throw (ApiError 401 "Authorization token required")
        | Some token =>
          if String.eqb token ""
          then throw (ApiError 401 "Authorization token required")
          else
            match JWT_SECRET env with
            | None => throw (ApiError 500 "JWT secret not configured")
            | Some jwtSecret =>
              if String.eqb jwtSecret ""
              then throw (ApiError 500 "JWT secret not configured")
              else
                try_catch
                  (decoded <-!
                     JwtVerify token jwtSecret (fun valid =>
                       if valid then JwtDecode token (fun d => ok d)
                       else throw JsonWebTokenError) ;;
                   found <-!
                     getUserById
                       match decoded with
                       | DecObject payload => payload !! "id"
                       | _ => None
                       end ;;
                   match found with
                   | None => throw (ApiError 401 "User not found")
                   | Some u => ok (mkReq (authorization req) (Some u) (u !! "id"))
                   end)
                  (fun _ => throw (ApiError 401 "Invalid or expired token"))
            end
        end
    end ;;
  match r with
  | inl error => Ret (req, Some error)
  | inr req' => Ret (req', None)
  end.

End Legacy.


(** The status the client sees when [next] is called with [e]. *)
Definition surfaced_status (e : option Err) : option nat :=
  errorHandler_status <$> e.

(** The store answered the lookup of [subj] in state [s] with the row [u]
    and no error. *)
Definition resolved {S : Type} (w : World S) (s : S)
    (subj : option JsVal) (u : Row) : Prop :=
  error (fst (store w s (SelectSingle "profiles" "id" subj))) = None /\
  data (fst (store w s (SelectSingle "profiles" "id" subj))) = Some u.

(** The token [authHeader.split(' ')[1]] of a header that passes the two
    header checks. *)
Definition bearer_of (authHeader : option string) (token : string) : Prop :=
  exists h, authHeader = Some h /\ startsWith "Bearer " h = true /\
            split " "%char h !! 1%nat = Some token /\ token <> "".

(** The two signers and the secret each one is checked against. *)
Inductive Issuer : Type := PlatformIssuer | LocalIssuer.

Definition issuer_secret (env : Env) (i : Issuer) : option string :=
  match i with
  | PlatformIssuer => SUPABASE_JWT_SECRET env
  | LocalIssuer => JWT_SECRET env
  end.

(** The branch a decoded payload selects, and the subject it names:
    [decodedToken?.sub] first, [decodedToken?.id] otherwise. *)
Inductive selects (payload : Row) : Issuer -> option JsVal -> Prop :=
| selects_sub :
    truthy (payload !! "sub") = true ->
    selects payload PlatformIssuer (payload !! "sub")
| selects_id :
    truthy (payload !! "sub") = false ->
    truthy (payload !! "id") = true ->
    selects payload LocalIssuer (payload !! "id").

(** [token] decodes to an object, selects [issuer] with subject [subj], the
    secret of that issuer is configured and [jwt.verify] accepts the token
    under it. *)
Definition verifies {S : Type} (w : World S) (env : Env) (token : string)
    (issuer : Issuer) (subj : option JsVal) : Prop :=
  exists payload secret,
    jwt_decode w token = DecObject payload /\
    selects payload issuer subj /\
    issuer_secret env issuer = Some secret /\ secret <> "" /\
    jwt_verify w token secret = true.

(** Events that ask the datastore to change rows. *)
Definition mutating (ev : Event) : bool :=
  match ev with
  | EvQuery op => is_mutation op
  | _ => false
  end.

(** Events that check a signature. *)
Definition verifying (ev : Event) : bool :=
  match ev with
  | EvVerify _ _ => true
  | _ => false
  end.

(* ===================================================================== *)
(** ** Route handlers *)
(* ===================================================================== *)

(** JSON bodies the handlers send. *)
Inductive Body : Type :=
| BErrors (errors : list string)         (* { errors: errors.array() } *)
| BSuccessData (data : option Row)       (* { success: true, data } *)
| BSuccess                               (* { success: true } *)
| BList (data : list Row) (count : Z).   (* { data, count } *)

(** How a handler ends: [res.status(..).json(..)] or [next(error)]. *)
Inductive Reply : Type :=
| Respond (status : nat) (body : Body)
| Next (error : Err).

(** The status code the client receives. *)
Definition reply_status (r : Reply) : nat :=
  match r with
  | Respond status _ => status
  | Next e => errorHandler_status e
  end.

(** [try { m } catch (error) { next(error) }] around a handler body. *)
Definition handler (m : Prog (Exn Reply)) : Prog Reply :=
  r <- m ;;
  match r with
  | inl error => Ret (Next error)
  | inr reply => Ret reply
  end.

(** [router.METHOD(path, mw, h)]: [h] runs only if [mw] calls [next()]. *)
Definition route (mw : Req -> Prog (Req * option Err))
    (h : Req -> Prog Reply) (req : Req) : Prog Reply :=
  out <- mw req ;;
  match snd out with
  | Some error => Ret (Next error)
  | None => h (fst out)
  end.

(** An object literal property whose value may be [undefined]: it is
    dropped when the object is serialised. *)
Definition with_prop (k : string) (v : option JsVal) (o : Row) : Row :=
  match v with
  | Some x => <[k := x]> o
  | None => delete k o
  end.

(** A parsed request body: [express.json()] delivers a JSON object or a
    JSON array (an absent body is the empty object). *)
Inductive ReqBody : Type :=
| JObject (o : Row)
| JArray (items : list Row).

#[warning="-uniform-inheritance"] Coercion JObject : gmap >-> ReqBody.

(** [body.k]: an array has none of the properties the handlers read. *)
Definition get_prop (k : string) (body : ReqBody) : option JsVal :=
  match body with
  | JObject o => o !! k
  | JArray _ => None
  end.

(** [delete body.k]: on an array there is no such property to delete. *)
Definition delete_prop (k : string) (body : ReqBody) : ReqBody :=
  match body with
  | JObject o => JObject (delete k o)
  | JArray items => JArray items
  end.

(** [.update(updates).eq(col, v)] with the body as the value to write. *)
Definition update_with (table : string) (updates : ReqBody) (col : string)
    (v : option JsVal) (returning : bool) : StoreOp :=
  match updates with
  | JObject o => Update table o col v returning
  | JArray items => UpdateArray table items col v returning
  end.

(** [req.user?.role?.includes('admin')], as a truth value, for the scalar
    column values of this model ([role: string] in database.types.ts); a
    scalar role that is neither missing, [null] nor a string has no
    [includes] and the call throws a [TypeError]. *)
Definition role_includes_admin (user : option Row) : Exn bool :=
  match user with
  | None => inr false
  | Some u =>
      match u !! "role" with
      | None => inr false
      | Some VNull => inr false
      | Some (VStr role) => inr (includes "admin" role)
      | Some _ => inl (Error "req.user?.role?.includes is not a function")
      end
  end.

(** [owner !== req.userId && !req.user?.role?.includes('admin')] *)
Definition not_permitted (owner : option JsVal) (req : Req) : Exn bool :=
  if strict_eq owner (userId req) then inr false
  else match role_includes_admin (user req) with
       | inl e => inl e
       | inr b => inr (negb b)
       end.

Module Dreams.

(** GET /api/dreams *)
Definition get_all (query_userId : option string) (req : Req) : Prog Reply :=
  handler
    (if negb (truthy_str query_userId)
     then throw (ApiError 400 "User ID is required")
     else
       QueryMany "dreams" "user_id" (VStr <$> query_userId) (fun r =>
         match rows_error r with
         | Some e => throw (ApiError 500 ("Error fetching dreams: " ++ pg_message e))
         | None =>
             ok (Respond 200
                   (BList (default [] (rows r)) (default 0%Z (count r))))
         end)).

(** GET /api/dreams/:id *)
Definition get_by_id (errors : list string) (id : string) (req : Req)
  : Prog Reply :=
  handler
    (match errors with
     | _ :: _ => ok (Respond 400 (BErrors errors))
     | [] =>
       Query (SelectSingle "dreams" "id" (Some (VStr id))) (fun r =>
         match error r with
         | Some e => throw (ApiError 500 (pg_message e))
         | None =>
           match data r with
           | None => throw (ApiError 404 "Dream not found")
           | Some d => ok (Respond 200 (BSuccessData (Some d)))
           end
         end)
     end).

(** PUT /api/dreams/:id *)
Definition put (errors : list string) (id : string) (body : ReqBody) (req : Req)
  : Prog Reply :=
  handler
    (match errors with
     | _ :: _ => ok (Respond 400 (BErrors errors))
     | [] =>
       let updates := delete_prop "user_id" body in
       Query (update_with "dreams" updates "id" (Some (VStr id)) true) (fun r =>
         match error r with
         | Some e => throw (ApiError 500 (pg_message e))
         | None =>
           match data r with
           | None => throw (ApiError 404 "Dream not found")
           | Some d => ok (Respond 200 (BSuccessData (Some d)))
           end
         end)
     end).

(** DELETE /api/dreams/:id *)
Definition del (errors : list string) (id : string) (req : Req) : Prog Reply :=
  handler
    (match errors with
     | _ :: _ => ok (Respond 400 (BErrors errors))
     | [] =>
       Query (Delete "dreams" "id" (Some (VStr id))) (fun r =>
         match error r with
         | Some e => throw (ApiError 500 (pg_message e))
         | None => ok (Respond 200 BSuccess)
         end)
     end).

End Dreams.

Module Subscriptions.

(** [{ tier, is_premium: tier !== 'free' }] *)
Definition tier_patch (tier : option JsVal) : Row :=
  with_prop "tier" tier
    {[ "is_premium" := VBool (negb (strict_eq tier (Some (VStr "free")))) ]}.

(** POST /api/subscriptions *)
Definition post (errors : list string) (body : Row) (req : Req) : Prog Reply :=
  handler
    (match errors with
     | _ :: _ => ok (Respond 400 (BErrors errors))
     | [] =>
       let subscriptionData := body in
       match not_permitted (subscriptionData !! "user_id") req with
       | inl e => throw e
       | inr true => throw (ApiError 403 "Cannot create subscription for another user")
       | inr false =>
         Query (InsertReturning "subscriptions" subscriptionData) (fun r =>
           match error r with
           | Some e => throw (ApiError 500 (pg_message e))
           | None =>
             Query (Update "profiles" (tier_patch (subscriptionData !! "tier"))
                      "id" (subscriptionData !! "user_id") false) (fun _ =>
               ok (Respond 201 (BSuccessData (data r))))
           end)
       end
     end).

(** PUT /api/subscriptions/:id *)
Definition put (errors : list string) (id : string) (body : ReqBody) (req : Req)
  : Prog Reply :=
  handler
    (match errors with
     | _ :: _ => ok (Respond 400 (BErrors errors))
     | [] =>
       let updates := delete_prop "user_id" body in
       Query (SelectSingle "subscriptions" "id" (Some (VStr id))) (fun f =>
         match error f with
         | Some fetchError => throw (ApiError 500 (pg_message fetchError))
         | None =>
           match data f with
           | None => throw (ApiError 404 "Subscription not found")
           | Some subscription =>
             match not_permitted (subscription !! "user_id") req with
             | inl e => throw e
             | inr true =>
                 throw (ApiError 403 "Cannot update subscription for another user")
             | inr false =>
               Query (update_with "subscriptions" updates "id" (Some (VStr id)) true)
                 (fun r =>
                   match error r with
                   | Some e => throw (ApiError 500 (pg_message e))
                   | None =>
                     let reply := Respond 200 (BSuccessData (data r)) in
                     if truthy (get_prop "tier" updates) then
                       Query (Update "profiles" (tier_patch (get_prop "tier" updates))
                                "id" (subscription !! "user_id") false)
                         (fun _ => ok reply)
                     else ok reply
                   end)
             end
           end
         end)
     end).

(** PUT /api/subscriptions/:id/cancel; [now] is [new Date().toISOString()]. *)
Definition cancel (now : string) (id : string) (req : Req) : Prog Reply :=
  handler
    (Query (SelectSingle "subscriptions" "id" (Some (VStr id))) (fun f =>
       match error f with
       | Some fetchError => throw (ApiError 500 (pg_message fetchError))
       | None =>
         match data f with
         | None => throw (ApiError 404 "Subscription not found")
         | Some subscription =>
           match not_permitted (subscription !! "user_id") req with
           | inl e => throw e
           | inr true =>
               throw (ApiError 403 "Cannot cancel subscription for another user")
           | inr false =>
             Query (Update "subscriptions"
                      {[ "status" := VStr "cancelled"; "end_date" := VStr now ]}
                      "id" (Some (VStr id)) true)
               (fun r =>
                 match error r with
                 | Some e => throw (ApiError 500 (pg_message e))
                 | None =>
                   Query (Update "profiles"
                            {[ "tier" := VStr "free"; "is_premium" := VBool false ]}
                            "id" (subscription !! "user_id") false)
                     (fun _ => ok (Respond 200 (BSuccessData (data r))))
                 end)
           end
         end
       end)).

End Subscriptions.

Module Profile.

(** The keys the PUT handler deletes from the body. *)
Definition restricted_fields : list string :=
  ["id"; "tier"; "is_premium"; "created_at"; "updated_at"].

(** The five [delete updates.k] statements of the PUT handler. *)
Definition strip_restricted (updates : ReqBody) : ReqBody :=
  delete_prop "updated_at"
    (delete_prop "created_at"
       (delete_prop "is_premium" (delete_prop "tier" (delete_prop "id" updates)))).

(** PUT /api/profile *)
Definition put (errors : list string) (body : ReqBody) (req : Req) : Prog Reply :=
  handler
    (match errors with
     | _ :: _ => ok (Respond 400 (BErrors errors))
     | [] =>
       if negb (truthy (userId req))
       then throw (ApiError 401 "Authentication required")
       else
         let updates := strip_restricted body in
         Query (update_with "profiles" updates "id" (userId req) true) (fun r =>
           match error r with
           | Some e => throw (ApiError 500 (pg_message e))
           | None =>
             match data r with
             | None => throw (ApiError 404 "Profile not found")
             | Some d => ok (Respond 200 (BSuccessData (Some d)))
             end
           end)
     end).

End Profile.

(* ===================================================================== *)
(** ** A reference datastore and a reference token format *)
(* ===================================================================== *)

(** An in-memory PostgREST: a table is a list of rows, [.eq] keeps the rows
    whose column holds exactly the given value, [.single()] fails unless
    exactly one row is left, and an update overwrites the patched columns
    of the rows it selects.  An array given to an update is a record set:
    the selected rows are written from its first record, and an empty
    array writes nothing. *)
Module Mem.

Abbreviation Db := (gmap string (list Row)).

Definition table (db : Db) (t : string) : list Row := default [] (db !! t).

Definition matches (col : string) (v : option JsVal) (r : Row) : bool :=
  match v with
  | None => false
  | Some x => bool_decide (r !! col = Some x)
  end.

Definition PGRST116 : PgError :=
  mkPgError "PGRST116" "JSON object requested, multiple (or no) rows returned".

Definition single (rs : list Row) : Resp :=
  match rs with
  | [r] => mkResp (Some r) None
  | _ => mkResp None (Some PGRST116)
  end.

Definition patch_row (patch : Row) (col : string) (v : option JsVal) (r : Row)
  : Row :=
  if matches col v r then patch ∪ r else r.

Definition store (db : Db) (op : StoreOp) : Resp * Db :=
  match op with
  | SelectSingle t col v =>
      (single (List.filter (matches col v) (table db t)), db)
  | InsertReturning t row =>
      (mkResp (Some row) None, <[t := table db t ++ [row]]> db)
  | Update t patch col v returning =>
      (if returning
       then single ((fun r => patch ∪ r) <$> List.filter (matches col v) (table db t))
       else mkResp None None,
       <[t := patch_row patch col v <$> table db t]> db)
  | UpdateArray t payload col v returning =>
      match payload with
      | [] => (if returning then single [] else mkResp None None, db)
      | patch :: _ =>
          (if returning
           then single ((fun r => patch ∪ r) <$> List.filter (matches col v) (table db t))
           else mkResp None None,
           <[t := patch_row patch col v <$> table db t]> db)
      end
  | Delete t col v =>
      (mkResp None None,
       <[t := List.filter (fun r => negb (matches col v r)) (table db t)]> db)
  end.

Definition store_many (db : Db) (t col : string) (v : option JsVal)
  : RespMany * Db :=
  (mkRespMany (Some (List.filter (matches col v) (table db t))) None None, db).

End Mem.

(** A toy token ["<sub>.<id>.<key>"]: the payload has [sub] and [id] when
    the parts are not empty, and the token verifies under exactly the
    secret [key]. *)
Module Toy.

Definition nonempty (s : string) : option JsVal :=
  if String.eqb s "" then None else Some (VStr s).

Definition decode (token : string) : Decoded :=
  match split "."%char token with
  | [sub; id; _] =>
      DecObject (with_prop "sub" (nonempty sub) (with_prop "id" (nonempty id) ∅))
  | _ => DecNull
  end.

Definition verify (token secret : string) : bool :=
  match split "."%char token with
  | [_; _; key] => String.eqb key secret
  | _ => false
  end.

(** The reference world. *)
Definition world : World Mem.Db :=
  mkWorld decode verify Mem.store Mem.store_many.

(** The same tokens over a datastore that cannot be reached. *)
Definition unreachable : PgError := mkPgError "" "fetch failed".

Definition world_down : World unit :=
  mkWorld decode verify
    (fun s _ => (mkResp None (Some unreachable), s))
    (fun s _ _ _ => (mkRespMany None (Some unreachable) None, s)).

Definition env : Env := mkEnv (Some "platform-secret") (Some "local-secret").

(** Two users and one dream and one subscription of the first. *)
Definition alice : Row :=
  {[ "id" := VStr "u1"; "role" := VStr "user"; "tier" := VStr "premium" ]}.
Definition bob : Row :=
  {[ "id" := VStr "u2"; "role" := VStr "user"; "tier" := VStr "free" ]}.
Definition dream1 : Row :=
  {[ "id" := VStr "d1"; "user_id" := VStr "u1"; "title" := VStr "flying" ]}.
Definition sub1 : Row :=
  {[ "id" := VStr "s1"; "user_id" := VStr "u1"; "status" := VStr "active" ]}.

Definition db : Mem.Db :=
  {[ "profiles" := [alice; bob];
     "dreams" := [dream1];
     "subscriptions" := [sub1] ]}.

End Toy.

(* ===================================================================== *)
(** ** Further lookups, middleware and handlers *)
(* ===================================================================== *)

(** api/lib/supabase.ts, [getUserByEmail]: a point lookup in [users]; the
    "no rows" error PGRST116 is not thrown. *)
Definition getUserByEmail (email : string) : Prog (Exn (option Row)) :=
  Query (SelectSingle "users" "email" (Some (VStr email))) (fun r =>
    match error r with
    | Some e =>
        if negb (String.eqb (code e) "PGRST116")
        then throw (Error ("Error fetching user by email: " ++ pg_message e))
        else ok (data r)
    | None => ok (data r)
    end).

(** The lenient middleware of the earlier single-issuer version
    (dist/middleware/auth.js): the secret is read outside the inner [try],
    so a missing secret is thrown to the outer [catch]. *)
Module LegacyLenient.

Definition optionalAuth (env : Env) (req : Req) : Prog (Req * option Err) :=
  match authorization req with
  | None => Ret (req, None)
  | Some authHeader =>
    if String.eqb authHeader "" || negb (startsWith "Bearer " authHeader)
    then Ret (req, None)
    else
      match split " "%char authHeader !! 1%nat with
      | None => Ret (req, None)
      | Some token =>
        if String.eqb token "" then Ret (req, None)
        else
          match JWT_SECRET env with
          | None => Ret (req, Some (ApiError 500 "JWT secret not configured"))
          | Some jwtSecret =>
            if String.eqb jwtSecret ""
            then Ret (req, Some (ApiError 500 "JWT secret not configured"))
            else
              r <-
                (decoded <-!
                   JwtVerify token jwtSecret (fun valid =>
                     if valid then JwtDecode token (fun d => ok d)
                     else throw JsonWebTokenError) ;;
                 found <-!
                   getUserById
                     match decoded with
                     | DecObject payload => payload !! "id"
                     | _ => None
                     end ;;
                 match found with
                 | Some u => ok (mkReq (authorization req) (Some u) (u !! "id"))
                 | None => ok req
                 end) ;;
              match r with
              | inl _ => Ret (req, None)
              | inr req' => Ret (req', None)
              end
          end
      end
  end.

End LegacyLenient.

(** [a || b] on possibly missing values. *)
Definition js_or (a b : option JsVal) : option JsVal :=
  if truthy a then a else b.

Module DreamWrites.

(** POST /api/dreams *)
Definition create (errors : list string) (body : Row) (req : Req) : Prog Reply :=
  handler
    (match errors with
     | _ :: _ => ok (Respond 400 (BErrors errors))
     | [] =>
       let dreamData :=
         if negb (truthy (body !! "user_id"))
         then with_prop "user_id" (userId req) body
         else body in
       Query (InsertReturning "dreams" dreamData) (fun r =>
         match error r with
         | Some e => throw (ApiError 500 (pg_message e))
         | None => ok (Respond 201 (BSuccessData (data r)))
         end)
     end).

(** POST /api/dreams/save; [now] is [new Date().toISOString()]. *)
Definition save (now : string) (errors : list string) (body : Row) (req : Req)
  : Prog Reply :=
  handler
    (match errors with
     | _ :: _ => ok (Respond 400 (BErrors errors))
     | [] =>
       let dreamData := delete "userId" body in
       let user_id := js_or (body !! "userId") (userId req) in
       if negb (truthy user_id)
       then throw (ApiError 400 "User ID is required")
       else
         Query (InsertReturning "dreams"
                  (with_prop "date" (js_or (dreamData !! "date") (Some (VStr now)))
                     (with_prop "user_id" user_id dreamData)))
           (fun r =>
             match error r with
             | Some e => throw (ApiError 500 (pg_message e))
             | None => ok (Respond 201 (BSuccessData (data r)))
             end)
     end).

(** PUT /api/dreams/:id/comic *)
Definition put_comic (errors : list string) (id : string) (body : Row) (req : Req)
  : Prog Reply :=
  handler
    (match errors with
     | _ :: _ => ok (Respond 400 (BErrors errors))
     | [] =>
       let imageUrl := body !! "imageUrl" in
       if negb (truthy imageUrl)
       then throw (ApiError 400 "Image URL is required")
       else
         Query (Update "dreams" (with_prop "image_url" imageUrl ∅)
                  "id" (Some (VStr id)) true)
           (fun r =>
             match error r with
             | Some e => throw (ApiError 500 (pg_message e))
             | None =>
               match data r with
               | None => throw (ApiError 404 "Dream not found")
               | Some d => ok (Respond 200 (BSuccessData (Some d)))
               end
             end)
     end).

End DreamWrites.

Module Reads.

(** GET /api/dreams/video/:taskId *)
Definition video_status (taskId : string) (req : Req) : Prog Reply :=
  handler
    (if String.eqb taskId ""
     then throw (ApiError 400 "Task ID is required")
     else
       Query (SelectSingle "dreams" "video_task_id" (Some (VStr taskId))) (fun r =>
         match error r with
         | Some dreamError => throw (ApiError 500 (pg_message dreamError))
         | None =>
           match data r with
           | None => throw (ApiError 404 "No dream found with this task ID")
           | Some dream =>
             ok (Respond 200
                   (BSuccessData
                      (Some (with_prop "status" (dream !! "video_status")
                               (with_prop "videoUrl" (dream !! "video_url") ∅)))))
           end
         end)).

(** GET /api/profile *)
Definition profile (req : Req) : Prog Reply :=
  handler
    (if negb (truthy (userId req))
     then throw (ApiError 401 "Authentication required")
     else
       Query (SelectSingle "profiles" "id" (userId req)) (fun r =>
         match error r with
         | Some e => throw (ApiError 500 (pg_message e))
         | None =>
           match data r with
           | None => throw (ApiError 404 "Profile not found")
           | Some d => ok (Respond 200 (BSuccessData (Some d)))
           end
         end)).

(** How GET /api/subscriptions ends: it sends a bare row. *)
Inductive Sent : Type :=
| SentRow (status : nat) (row : Row)
| SentNext (error : Err).

(** The subscription sent when the user has none; [profile] is the
    [tier, is_premium] row of the user, or [null]. *)
Definition defaultSubscription (now1 now2 : string) (uid : option JsVal)
    (profile : option Row) : Row :=
  with_prop "user_id" uid
    {[ "id" := VNull;
       "tier" := default (VStr "free")
                   (js_or (profile ≫= (.!! "tier")) (Some (VStr "free")));
       "status" := VStr "active";
       "is_premium" := default (VBool false)
                         (js_or (profile ≫= (.!! "is_premium")) (Some (VBool false)));
       "created_at" := VStr now1;
       "updated_at" := VStr now2 ]}.

(** GET /api/subscriptions; [now1], [now2] are the two
    [new Date().toISOString()] of the default subscription. *)
Definition subscription (now1 now2 : string) (req : Req) : Prog Sent :=
  r <-
    (if negb (truthy (userId req))
     then throw (ApiError 400 "User ID is required")
     else
       Query (SelectSingle "subscriptions" "user_id" (userId req)) (fun f =>
         let continue :=
           match data f with
           | Some subscription => ok (SentRow 200 subscription)
           | None =>
             Query (SelectSingle "profiles" "id" (userId req)) (fun p =>
               match error p with
               | Some profileError =>
                   throw (ApiError 500
                            ("Error fetching profile: " ++ pg_message profileError))
               | None =>
                   ok (SentRow 200
                         (defaultSubscription now1 now2 (userId req) (data p)))
               end)
           end in
         match error f with
         | Some e =>
             if negb (String.eqb (code e) "PGRST116")
             then throw (ApiError 500
                           ("Error fetching subscription: " ++ pg_message e))
             else continue
         | None => continue
         end)) ;;
  match r with
  | inl error => Ret (SentNext error)
  | inr sent => Ret sent
  end.

End Reads.

(** The two users of the reference world as [auth] leaves them on the
    request. *)
Definition toy_requester_bob : Req :=
  mkReq (Some "Bearer .u2.local-secret") (Some Toy.bob) (Some (VStr "u2")).

Definition toy_requester_alice : Req :=
  mkReq (Some "Bearer .u1.local-secret") (Some Toy.alice) (Some (VStr "u1")).
(* ===================================================================== *)
(** ** Facts about the middleware *)
(* ===================================================================== *)

(** Destructs whatever the next [match] or [if] of the goal looks at. *)
Ltac step_match :=
  match goal with
  | |- context [match ?x with _ => _ end] =>
      lazymatch x with
      | context [match _ with _ => _ end] => fail
      | _ => let E := fresh "E" in destruct x eqn:E
      end
  end.

Ltac crunch := repeat (simpl in *; try step_match); simpl in *.

(** C5. A request whose Authorization header is absent, does not start with
    "Bearer ", or whose extracted token [split(' ')[1]] is empty: [auth]
    calls [next] with the 401 error "Authorization token required",
    [optionalAuth] calls [next()], and in both cases the request carries
    neither [user] nor [userId]; the collaborators are not touched. *)
Theorem no_bearer_token_strict_401_optional_anonymous :
  forall (S : Type) (w : World S) (env : Env) (authHeader : option string) (s : S),
    (authHeader = None \/
     exists h, authHeader = Some h /\
       (startsWith "Bearer " h = false \/ split " "%char h !! 1%nat = Some "")) ->
    let strict := run w (auth env (fresh authHeader)) s in
    let optional := run w (optionalAuth env (fresh authHeader)) s in
    strict
      = ((fresh authHeader, Some (ApiError 401 "Authorization token required")), s, [])
    /\ surfaced_status (snd (fst (fst strict))) = Some 401
    /\ optional = ((fresh authHeader, None), s, [])
    /\ user (fst (fst (fst optional))) = None
    /\ userId (fst (fst (fst optional))) = None.
Proof.
  intros S w env authHeader s H.
  assert (Hgate :
    match authHeader with
    | None => True
    | Some h =>
        (String.eqb h "" || negb (startsWith "Bearer " h) = true) \/
        split " "%char h !! 1%nat = Some ""
    end).
  { destruct H as [-> | (h & -> & [Hp | Ht])]; [exact I | left | right; exact Ht].
    rewrite Hp. apply orb_true_r. }
  assert (Hstrict : run w (auth env (fresh authHeader)) s
    = ((fresh authHeader, Some (ApiError 401 "Authorization token required")), s, [])).
  { unfold auth, fresh; simpl. destruct authHeader as [h|]; [|reflexivity].
    destruct (String.eqb h "" || negb (startsWith "Bearer " h)) eqn:G; [reflexivity|].
    destruct Hgate as [Hg | Ht]; [discriminate|]. rewrite Ht. reflexivity. }
  assert (Hopt : run w (optionalAuth env (fresh authHeader)) s
    = ((fresh authHeader, None), s, [])).
  { unfold optionalAuth, fresh; simpl. destruct authHeader as [h|]; [|reflexivity].
    destruct (String.eqb h "" || negb (startsWith "Bearer " h)) eqn:G; [reflexivity|].
    destruct Hgate as [Hg | Ht]; [discriminate|]. rewrite Ht. reflexivity. }
  simpl. rewrite Hstrict, Hopt. repeat split; reflexivity.
Qed.

Example split_header : split " "%char "Bearer abc def" = ["Bearer"; "abc"; "def"].
Proof. reflexivity. Qed.

Example split_bare_scheme : split " "%char "Bearer " !! 1%nat = Some "".
Proof. reflexivity. Qed.

Lemma no_bearer_token_witness :
  (Some "Basic dXNlcg==" = None \/
     exists h, Some "Basic dXNlcg==" = Some h /\
       (startsWith "Bearer " h = false \/ split " "%char h !! 1%nat = Some "")) /\
  run Toy.world (auth Toy.env (fresh (Some "Basic dXNlcg=="))) Toy.db
    = ((fresh (Some "Basic dXNlcg=="),
        Some (ApiError 401 "Authorization token required")), Toy.db, []).
Proof.
  assert (H : Some "Basic dXNlcg==" = None \/
     exists h, Some "Basic dXNlcg==" = Some h /\
       (startsWith "Bearer " h = false \/ split " "%char h !! 1%nat = Some "")).
  { right. exists "Basic dXNlcg==". split; [reflexivity | left; reflexivity]. }
  split; [exact H|].
  exact (proj1
    (no_bearer_token_strict_401_optional_anonymous _ Toy.world Toy.env _ Toy.db H)).
Defined.

(** *** What the middleware does once a token has been extracted *)

Section Verified.
Context {S : Type} (w : World S) (env : Env).
Variables (authHeader : option string) (token : string).
Variables (issuer : Issuer) (subj : option JsVal) (s : S).
Hypothesis Hbearer : bearer_of authHeader token.
Hypothesis Hverifies : verifies w env token issuer subj.

Let answer : Resp := fst (store w s (SelectSingle "profiles" "id" subj)).

(** The request and the argument of [next] after a verified token:
    identity is attached exactly when the lookup returns a row. *)
Lemma auth_verified_outcome :
  fst (fst (run w (auth env (fresh authHeader)) s)) =
  match error answer, data answer with
  | None, Some u => (mkReq authHeader (Some u) (u !! "id"), None)
  | _, _ => (fresh authHeader, Some (ApiError 401 "Invalid or expired token"))
  end.
Proof.
  subst answer.
  destruct Hbearer as (h & -> & Hpre & Htok & Hne).
  destruct Hverifies as (payload & secret & Hdec & Hsel & Hsec & Hsne & Hver).
  apply String.eqb_neq in Hne, Hsne.
  assert (Hh : String.eqb h "" = false).
  { destruct h; [discriminate Hpre | reflexivity]. }
  unfold auth, fresh; simpl. unfold startsWith in *.
  rewrite Hh, Hpre, Htok; simpl. rewrite Hne; simpl. rewrite Hdec.
  inversion Hsel as [Hsub | Hsub Hid]; subst; simpl in Hsec;
    rewrite ?Hsub, ?Hid, Hsec, Hsne; simpl; rewrite Hver; simpl;
    destruct (store w s _) as [r s1]; simpl;
    destruct (error r), (data r); reflexivity.
Qed.

Lemma optionalAuth_verified_outcome :
  fst (fst (run w (optionalAuth env (fresh authHeader)) s)) =
  match error answer, data answer with
  | None, Some u => (mkReq authHeader (Some u) (u !! "id"), None)
  | _, _ => (fresh authHeader, None)
  end.
Proof.
  subst answer.
  destruct Hbearer as (h & -> & Hpre & Htok & Hne).
  destruct Hverifies as (payload & secret & Hdec & Hsel & Hsec & Hsne & Hver).
  apply String.eqb_neq in Hne, Hsne.
  assert (Hh : String.eqb h "" = false).
  { destruct h; [discriminate Hpre | reflexivity]. }
  unfold optionalAuth, fresh; simpl. unfold startsWith in *.
  rewrite Hh, Hpre, Htok; simpl. rewrite Hne; simpl. rewrite Hdec.
  inversion Hsel as [Hsub | Hsub Hid]; subst; simpl in Hsec;
    rewrite ?Hsub, ?Hid; simpl.
  - destruct (store w s _) as [r s1]; simpl.
    destruct (error r), (data r); reflexivity.
  - rewrite Hsec, Hsne; simpl; rewrite Hver; simpl.
    destruct (store w s _) as [r s1]; simpl.
    destruct (error r), (data r); reflexivity.
Qed.
End Verified.

(** [getUserById] throws on every error of the client; were the error to
    reach the error handler it would be a 500. *)
Lemma getUserById_throws {S : Type} (w : World S) (s : S) subj e :
  error (fst (store w s (SelectSingle "profiles" "id" subj))) = Some e ->
  exists err, fst (fst (run w (getUserById subj) s)) = inl err /\
              errorHandler_status err = 500.
Proof.
  intros He. unfold getUserById; simpl.
  destruct (store w s _) as [r s1]; simpl in *. rewrite He; simpl.
  eexists; split; reflexivity.
Qed.

(** *** Failures of the user lookup *)

(** C4 (as amended). A lookup that hits a datastore error makes
    [getUserById] throw an error without a status code (a 500 if it reached
    the error handler), but [auth] catches it and calls [next] with the
    generic 401 "Invalid or expired token", and [optionalAuth] calls
    [next()] with no identity attached. *)
Theorem upstream_error_strict_401_optional_anonymous :
  forall (S : Type) (w : World S) (env : Env) (authHeader : option string)
         (token : string) (issuer : Issuer) (subj : option JsVal) (s : S)
         (e : PgError),
    bearer_of authHeader token ->
    verifies w env token issuer subj ->
    error (fst (store w s (SelectSingle "profiles" "id" subj))) = Some e ->
    (exists err, fst (fst (run w (getUserById subj) s)) = inl err /\
                 errorHandler_status err = 500) /\
    fst (fst (run w (auth env (fresh authHeader)) s))
      = (fresh authHeader, Some (ApiError 401 "Invalid or expired token")) /\
    fst (fst (run w (optionalAuth env (fresh authHeader)) s))
      = (fresh authHeader, None).
Proof.
  intros S w env authHeader token issuer subj s e Hb Hv He.
  split; [eapply getUserById_throws; eassumption|].
  rewrite (auth_verified_outcome w env _ _ _ _ s Hb Hv).
  rewrite (optionalAuth_verified_outcome w env _ _ _ _ s Hb Hv).
  rewrite He. split; reflexivity.
Qed.

(** The local token of user u2, verified, in both reference worlds. *)
Lemma toy_bearer_bob :
  bearer_of (Some "Bearer .u2.local-secret") ".u2.local-secret".
Proof.
  exists "Bearer .u2.local-secret". split; [reflexivity|]. split; [reflexivity|].
  split; [reflexivity | discriminate].
Defined.

Lemma toy_verifies_bob {S : Type} (st : S -> StoreOp -> Resp * S) many :
  verifies (mkWorld Toy.decode Toy.verify st many) Toy.env
    ".u2.local-secret" LocalIssuer (Some (VStr "u2")).
Proof.
  exists ({[ "id" := VStr "u2" ]} : Row), "local-secret".
  split; [reflexivity|].
  split; [|split; [reflexivity | split; [discriminate | reflexivity]]].
  change (Some (VStr "u2")) with (({[ "id" := VStr "u2" ]} : Row) !! "id").
  apply selects_id; reflexivity.
Defined.

Lemma upstream_error_witness :
  error (fst (store Toy.world_down tt
                (SelectSingle "profiles" "id" (Some (VStr "u2")))))
    = Some Toy.unreachable /\
  fst (fst (run Toy.world_down
              (auth Toy.env (fresh (Some "Bearer .u2.local-secret"))) tt))
    = (fresh (Some "Bearer .u2.local-secret"),
       Some (ApiError 401 "Invalid or expired token")).
Proof.
  split; [reflexivity|].
  exact (proj1 (proj2
    (upstream_error_strict_401_optional_anonymous unit Toy.world_down Toy.env
       _ _ _ _ tt Toy.unreachable toy_bearer_bob (toy_verifies_bob _ _)
       eq_refl))).
Defined.

(** C4 (as stated) fails: with the datastore unreachable, the lookup of a
    verified subject errors and the client receives 401, not a 500-class
    status. *)
Lemma upstream_error_not_surfaced_as_500 :
  bearer_of (Some "Bearer .u2.local-secret") ".u2.local-secret" /\
  verifies Toy.world_down Toy.env ".u2.local-secret" LocalIssuer (Some (VStr "u2")) /\
  error (fst (store Toy.world_down tt
                (SelectSingle "profiles" "id" (Some (VStr "u2")))))
    = Some Toy.unreachable /\
  In (EvQuery (SelectSingle "profiles" "id" (Some (VStr "u2"))))
     (snd (run Toy.world_down
             (auth Toy.env (fresh (Some "Bearer .u2.local-secret"))) tt)) /\
  surfaced_status
    (snd (fst (fst (run Toy.world_down
                      (auth Toy.env (fresh (Some "Bearer .u2.local-secret"))) tt))))
    = Some 401 /\
  ~ (exists n,
       surfaced_status
         (snd (fst (fst (run Toy.world_down
                           (auth Toy.env (fresh (Some "Bearer .u2.local-secret")))
                           tt)))) = Some n /\
       500 <= n).
Proof.
  split; [apply toy_bearer_bob|].
  split; [apply toy_verifies_bob|].
  split; [reflexivity|].
  split; [right; right; left; reflexivity|].
  split; [reflexivity|].
  intros (n & Hn & Hge).
  change (Some 401 = Some n) in Hn. inversion Hn; subst. lia.
Qed.

(** C6. A token that verifies but whose subject has no row in the user
    store ([data] is [null], with or without an error): [auth] calls [next]
    with a 401 error and [optionalAuth] calls [next()] with no identity
    attached. *)
Theorem missing_user_strict_401_optional_anonymous :
  forall (S : Type) (w : World S) (env : Env) (authHeader : option string)
         (token : string) (issuer : Issuer) (subj : option JsVal) (s : S),
    bearer_of authHeader token ->
    verifies w env token issuer subj ->
    data (fst (store w s (SelectSingle "profiles" "id" subj))) = None ->
    let strict := fst (fst (run w (auth env (fresh authHeader)) s)) in
    let optional := fst (fst (run w (optionalAuth env (fresh authHeader)) s)) in
    strict = (fresh authHeader, Some (ApiError 401 "Invalid or expired token")) /\
    surfaced_status (snd strict) = Some 401 /\
    optional = (fresh authHeader, None) /\
    user (fst optional) = None /\ userId (fst optional) = None.
Proof.
  intros S w env authHeader token issuer subj s Hb Hv Hd. simpl.
  rewrite (auth_verified_outcome w env _ _ _ _ s Hb Hv).
  rewrite (optionalAuth_verified_outcome w env _ _ _ _ s Hb Hv).
  rewrite Hd. destruct (error _); repeat split; reflexivity.
Qed.

(** The local token of a user who has no profile row. *)
Lemma toy_bearer_ghost :
  bearer_of (Some "Bearer .u9.local-secret") ".u9.local-secret".
Proof.
  exists "Bearer .u9.local-secret". split; [reflexivity|]. split; [reflexivity|].
  split; [reflexivity | discriminate].
Defined.

Lemma toy_verifies_ghost :
  verifies Toy.world Toy.env ".u9.local-secret" LocalIssuer (Some (VStr "u9")).
Proof.
  exists ({[ "id" := VStr "u9" ]} : Row), "local-secret".
  split; [reflexivity|].
  split; [|split; [reflexivity | split; [discriminate | reflexivity]]].
  change (Some (VStr "u9")) with (({[ "id" := VStr "u9" ]} : Row) !! "id").
  apply selects_id; reflexivity.
Defined.

Lemma missing_user_witness :
  data (fst (store Toy.world Toy.db
               (SelectSingle "profiles" "id" (Some (VStr "u9"))))) = None /\
  fst (fst (run Toy.world
              (auth Toy.env (fresh (Some "Bearer .u9.local-secret"))) Toy.db))
    = (fresh (Some "Bearer .u9.local-secret"),
       Some (ApiError 401 "Invalid or expired token")).
Proof.
  split; [reflexivity|].
  exact (proj1
    (missing_user_strict_401_optional_anonymous _ Toy.world Toy.env
       _ _ _ _ Toy.db toy_bearer_ghost toy_verifies_ghost eq_refl)).
Defined.

(** *** The request context *)

(** C7. Starting from a fresh request and a user store whose rows carry
    their key, either variant ends with [user] and [userId] both absent, or
    both set; in the latter case the store answered this request's lookup
    with the attached row and no error, and [userId] is the [id] of that
    row. *)
Theorem context_fields_set_together :
  forall (S : Type) (w : World S) (env : Env) (authHeader : option string) (s : S)
         (mw : Env -> Req -> Prog (Req * option Err)),
    (forall subj u, resolved w s subj u -> is_Some (u !! "id")) ->
    mw = auth \/ mw = optionalAuth ->
    let out := run w (mw env (fresh authHeader)) s in
    let req' := fst (fst (fst out)) in
    (user req' = None /\ userId req' = None) \/
    (exists subj u v,
        resolved w s subj u /\
        In (EvQuery (SelectSingle "profiles" "id" subj)) (snd out) /\
        user req' = Some u /\ userId req' = Some v /\ u !! "id" = Some v).
Proof.
  intros S w env authHeader s mw Hkey Hmw out req'. subst out req'.
  destruct Hmw as [-> | ->]; unfold auth, optionalAuth, fresh; crunch;
    try (left; split; reflexivity);
    match goal with
    | Hs : store w s (SelectSingle "profiles" "id" ?subj) = (?r, _),
      He : error ?r = None, Hd : data ?r = Some ?u |- _ =>
        assert (Hres : resolved w s subj u)
          by (unfold resolved; rewrite Hs; simpl; split; assumption);
        destruct (Hkey _ _ Hres) as [v Hv];
        right; exists subj, u, v; rewrite Hv; simpl; tauto
    end.
Qed.

Lemma toy_profiles_keyed :
  forall subj u, resolved Toy.world Toy.db subj u -> is_Some (u !! "id").
Proof.
  intros subj u [_ Hd]. simpl in Hd. revert Hd.
  destruct subj as [x|]; [|discriminate].
  change (Mem.table Toy.db "profiles") with [Toy.alice; Toy.bob]. simpl.
  repeat case_bool_decide; simpl; intros Hd; inversion Hd; subst; eauto.
Defined.

Lemma context_fields_witness :
  let out := run Toy.world
               (auth Toy.env (fresh (Some "Bearer .u2.local-secret"))) Toy.db in
  let req' := fst (fst (fst out)) in
  (user req' = None /\ userId req' = None) \/
  (exists subj u v,
      resolved Toy.world Toy.db subj u /\
      In (EvQuery (SelectSingle "profiles" "id" subj)) (snd out) /\
      user req' = Some u /\ userId req' = Some v /\ u !! "id" = Some v).
Proof.
  exact (context_fields_set_together _ Toy.world Toy.env
           (Some "Bearer .u2.local-secret") Toy.db auth
           toy_profiles_keyed (or_introl eq_refl)).
Defined.

(** *** Signature checks *)

(** X5. Whenever [auth] attaches an identity, the token was accepted by
    [jwt.verify] under the secret of the branch its payload selects, and
    that check is the one event of its kind in the trace. *)
Lemma auth_attaches_only_verified :
  forall (S : Type) (w : World S) (env : Env) (authHeader : option string) (s : S),
    snd (fst (fst (run w (auth env (fresh authHeader)) s))) = None ->
    exists token issuer subj secret,
      bearer_of authHeader token /\
      verifies w env token issuer subj /\
      issuer_secret env issuer = Some secret /\
      List.filter verifying (snd (run w (auth env (fresh authHeader)) s))
        = [EvVerify token secret].
Proof.
  intros S w env authHeader s. unfold auth, fresh. crunch; try discriminate.
  all: intros _.
  all: lazymatch goal with
       | Hh : (String.eqb ?h "" || negb (startsWith "Bearer " ?h)) = false,
         Ht : split _ ?h !! 1%nat = Some ?token,
         Hne : String.eqb ?token "" = false,
         Hd : jwt_decode _ ?token = DecObject ?payload,
         Hv : jwt_verify _ ?token ?secret = true,
         Hs : String.eqb ?secret "" = false |- _ =>
           apply orb_false_elim in Hh; destruct Hh as [_ Hh];
           apply negb_false_iff in Hh;
           apply String.eqb_neq in Hne, Hs;
           exists token;
           match goal with
           | Hsub : truthy (payload !! "sub") = true |- _ =>
               exists PlatformIssuer, (payload !! "sub"), secret;
               split; [exists h; tauto|];
               split; [exists payload, secret;
                       repeat (split; try assumption); constructor; assumption|];
               split; [assumption | reflexivity]
           | Hsub : truthy (payload !! "sub") = false |- _ =>
               exists LocalIssuer, (payload !! "id"), secret;
               split; [exists h; tauto|];
               split; [exists payload, secret;
                       repeat (split; try assumption); constructor; assumption|];
               split; [assumption | reflexivity]
           end
       end.
Qed.

(** In [optionalAuth] a payload with a truthy [sub] goes straight to the
    user lookup: no signature is checked, whatever [jwt.verify] would say,
    and the row the store returns is attached. *)
Lemma optionalAuth_sub_branch_skips_verification :
  forall (S : Type) (w : World S) (env : Env) (authHeader : option string)
         (token : string) (payload : Row) (s : S),
    bearer_of authHeader token ->
    jwt_decode w token = DecObject payload ->
    truthy (payload !! "sub") = true ->
    let answer := fst (store w s (SelectSingle "profiles" "id" (payload !! "sub"))) in
    snd (run w (optionalAuth env (fresh authHeader)) s)
      = [EvDecode token; EvQuery (SelectSingle "profiles" "id" (payload !! "sub"))] /\
    fst (fst (run w (optionalAuth env (fresh authHeader)) s)) =
      match error answer, data answer with
      | None, Some u => (mkReq authHeader (Some u) (u !! "id"), None)
      | _, _ => (fresh authHeader, None)
      end.
Proof.
  intros S w env authHeader token payload s (h & -> & Hpre & Htok & Hne) Hdec Hsub.
  apply String.eqb_neq in Hne.
  assert (Hh : String.eqb h "" = false).
  { destruct h; [discriminate Hpre | reflexivity]. }
  unfold optionalAuth, fresh; simpl. unfold startsWith in *.
  rewrite Hh, Hpre, Htok; simpl. rewrite Hne; simpl. rewrite Hdec, Hsub; simpl.
  destruct (store w s _) as [r s1]; simpl.
  destruct (error r), (data r); split; reflexivity.
Qed.

(** C1 at its failing input. The token ["u1..forged"] names subject u1 in
    [sub] and verifies under neither configured secret; [optionalAuth]
    checks no signature and attaches the profile of u1 to the request. *)
Theorem optionalAuth_attaches_unverified_sub_token :
  Toy.verify "u1..forged" "platform-secret" = false /\
  Toy.verify "u1..forged" "local-secret" = false /\
  run Toy.world (optionalAuth Toy.env (fresh (Some "Bearer u1..forged"))) Toy.db
  = ((mkReq (Some "Bearer u1..forged") (Some Toy.alice) (Some (VStr "u1")), None),
     Toy.db,
     [EvDecode "u1..forged";
      EvQuery (SelectSingle "profiles" "id" (Some (VStr "u1")))]) /\
  snd (fst (fst (run Toy.world
                   (auth Toy.env (fresh (Some "Bearer u1..forged"))) Toy.db)))
  = Some (ApiError 401 "Invalid or expired token").
Proof. repeat apply conj; reflexivity. Qed.

(** *** Status codes of strict authentication *)

(** X6. Every error [auth] passes to [next] is a 401, with one of two
    messages; once a token has been extracted it is always the generic
    "Invalid or expired token", and a rejected request leaves the context
    untouched. *)
Lemma auth_rejections_are_401 :
  forall (S : Type) (w : World S) (env : Env) (authHeader : option string) (s : S)
         (err : Err),
    snd (fst (fst (run w (auth env (fresh authHeader)) s))) = Some err ->
    fst (fst (fst (run w (auth env (fresh authHeader)) s))) = fresh authHeader /\
    errorHandler_status err = 401 /\
    (err = ApiError 401 "Invalid or expired token" \/
     err = ApiError 401 "Authorization token required" /\
     forall token, ~ bearer_of authHeader token).
Proof.
  intros S w env authHeader s err. unfold auth, fresh.
  crunch; intros Herr; inversion Herr; subst; clear Herr;
    (split; [reflexivity|]); (split; [reflexivity|]);
    try (left; reflexivity); right; (split; [reflexivity|]);
    intros token (h & Hh & Hpre & Htok & Hne); try discriminate;
    inversion Hh; subst; unfold startsWith in *;
    repeat match goal with
           | H : String.eqb _ "" = true |- _ => apply String.eqb_eq in H
           end;
    try congruence.
  rewrite Hpre in *. rewrite orb_false_r in *.
  destruct h; [discriminate Hpre | discriminate].
Qed.

(** X8. The earlier middleware reads its secret before the inner [try], and a
    missing secret reaches the client as a 500. *)
Lemma legacy_auth_missing_secret_is_500 :
  forall (S : Type) (w : World S) (env : Env) (authHeader : option string)
         (token : string) (s : S),
    bearer_of authHeader token ->
    JWT_SECRET env = None ->
    run w (Legacy.auth env (fresh authHeader)) s
    = ((fresh authHeader, Some (ApiError 500 "JWT secret not configured")), s, []).
Proof.
  intros S w env authHeader token s (h & -> & Hpre & Htok & Hne) Hsec.
  apply String.eqb_neq in Hne.
  assert (Hh : String.eqb h "" = false).
  { destruct h; [discriminate Hpre | reflexivity]. }
  unfold Legacy.auth, fresh; simpl. unfold startsWith in *.
  rewrite Hh, Hpre, Htok; simpl. rewrite Hne, Hsec. reflexivity.
Qed.

(** C3 at its failing input. With SUPABASE_JWT_SECRET unset, a platform
    token reaches [throw new ApiError(500, ..)] inside the inner [try]; the
    inner [catch] replaces it and the client receives 401. *)
Theorem auth_missing_platform_secret_is_401 :
  run Toy.world
      (auth (mkEnv None (Some "local-secret"))
            (fresh (Some "Bearer u1..platform-secret"))) Toy.db
  = ((fresh (Some "Bearer u1..platform-secret"),
      Some (ApiError 401 "Invalid or expired token")),
     Toy.db, [EvDecode "u1..platform-secret"]) /\
  surfaced_status (Some (ApiError 401 "Invalid or expired token")) = Some 401 /\
  run Toy.world
      (auth (mkEnv (Some "platform-secret") None)
            (fresh (Some "Bearer .u2.local-secret"))) Toy.db
  = ((fresh (Some "Bearer .u2.local-secret"),
      Some (ApiError 401 "Invalid or expired token")),
     Toy.db, [EvDecode ".u2.local-secret"]).
Proof. repeat apply conj; reflexivity. Qed.

(** *** Tokens that carry both claims *)

(** X7. With both [sub] and [id] truthy, [auth] takes the [sub] branch: the
    only signature check is against the platform secret and the only lookup
    is by [sub]. *)
Lemma auth_both_claims_uses_platform_secret :
  forall (S : Type) (w : World S) (env : Env) (authHeader : option string)
         (token secret : string) (payload : Row) (s : S),
    bearer_of authHeader token ->
    jwt_decode w token = DecObject payload ->
    truthy (payload !! "sub") = true ->
    truthy (payload !! "id") = true ->
    SUPABASE_JWT_SECRET env = Some secret -> secret <> "" ->
    let tr := snd (run w (auth env (fresh authHeader)) s) in
    List.filter verifying tr = [EvVerify token secret] /\
    (forall op, In (EvQuery op) tr ->
                op = SelectSingle "profiles" "id" (payload !! "sub")).
Proof.
  intros S w env authHeader token secret payload s
         (h & -> & Hpre & Htok & Hne) Hdec Hsub Hid Hsec Hsne.
  apply String.eqb_neq in Hne, Hsne.
  assert (Hh : String.eqb h "" = false).
  { destruct h; [discriminate Hpre | reflexivity]. }
  unfold auth, fresh; simpl. unfold startsWith in *.
  rewrite Hh, Hpre, Htok; simpl. rewrite Hne; simpl.
  rewrite Hdec, Hsub, Hsec, Hsne; simpl.
  destruct (jwt_verify w token secret); simpl.
  - destruct (store w s _) as [r s1]; simpl.
    destruct (error r), (data r); simpl; (split; [reflexivity|]);
      intros op [Hop | [Hop | [Hop | []]]]; congruence.
  - split; [reflexivity|]. intros op [Hop | [Hop | []]]; congruence.
Qed.

(** In [optionalAuth] such a token is routed by [sub] too, and the local
    secret is not used; but nothing is verified at all. *)
Lemma optionalAuth_both_claims_by_sub :
  forall (S : Type) (w : World S) (env : Env) (authHeader : option string)
         (token : string) (payload : Row) (s : S),
    bearer_of authHeader token ->
    jwt_decode w token = DecObject payload ->
    truthy (payload !! "sub") = true ->
    truthy (payload !! "id") = true ->
    snd (run w (optionalAuth env (fresh authHeader)) s)
      = [EvDecode token; EvQuery (SelectSingle "profiles" "id" (payload !! "sub"))].
Proof.
  intros S w env authHeader token payload s Hb Hdec Hsub _.
  exact (proj1 (optionalAuth_sub_branch_skips_verification
                  S w env authHeader token payload s Hb Hdec Hsub)).
Qed.

(** C8 at its failing input. The token ["u1.u2.forged"] carries both
    claims; [optionalAuth] takes the subject from [sub] but performs no
    verification with the platform secret (nor any other), and attaches
    the profile of u1. *)
Theorem optionalAuth_both_claims_unverified :
  Toy.decode "u1.u2.forged"
    = DecObject {[ "sub" := VStr "u1"; "id" := VStr "u2" ]} /\
  Toy.verify "u1.u2.forged" "platform-secret" = false /\
  List.filter verifying
    (snd (run Toy.world
            (optionalAuth Toy.env (fresh (Some "Bearer u1.u2.forged"))) Toy.db))
    = [] /\
  run Toy.world (optionalAuth Toy.env (fresh (Some "Bearer u1.u2.forged"))) Toy.db
  = ((mkReq (Some "Bearer u1.u2.forged") (Some Toy.alice) (Some (VStr "u1")), None),
     Toy.db,
     [EvDecode "u1.u2.forged";
      EvQuery (SelectSingle "profiles" "id" (Some (VStr "u1")))]).
Proof. repeat apply conj; reflexivity. Qed.

(** *** Running composed programs *)

Lemma run_bind {S A B : Type} (w : World S) (m : Prog A) (f : A -> Prog B) (s : S) :
  run w (bind m f) s =
  let '(a, s1, t1) := run w m s in
  let '(b, s2, t2) := run w (f a) s1 in
  (b, s2, t1 ++ t2).
Proof.
  revert s. induction m as [a | tok k IH | tok sec k IH | op k IH | tb c v k IH];
    intros s; simpl.
  - destruct (run w (f a) s) as [[b s2] t2]. reflexivity.
  - rewrite IH. destruct (run w (k _) s) as [[a s1] t1].
    destruct (run w (f a) s1) as [[b s2] t2]. reflexivity.
  - rewrite IH. destruct (run w (k _) s) as [[a s1] t1].
    destruct (run w (f a) s1) as [[b s2] t2]. reflexivity.
  - destruct (store w s op) as [r s0]. rewrite IH.
    destruct (run w (k r) s0) as [[a s1] t1].
    destruct (run w (f a) s1) as [[b s2] t2]. reflexivity.
  - destruct (store_many w s tb c v) as [r s0]. rewrite IH.
    destruct (run w (k r) s0) as [[a s1] t1].
    destruct (run w (f a) s1) as [[b s2] t2]. reflexivity.
Qed.


(** Over the reference datastore the strict middleware leaves the tables
    as they are. *)
Lemma auth_preserves_mem decode verify env req (db : Mem.Db) :
  snd (fst (run (mkWorld decode verify Mem.store Mem.store_many) (auth env req) db))
  = db.
Proof. unfold auth; crunch; reflexivity. Qed.

(** A route whose middleware lets the request through runs the handler on
    the request the middleware produced. *)
Lemma route_passes decode verify env (h : Req -> Prog Reply) authHeader
      (db : Mem.Db) requester :
  let w := mkWorld decode verify Mem.store Mem.store_many in
  fst (fst (run w (auth env (fresh authHeader)) db)) = (requester, None) ->
  fst (run w (route (auth env) h (fresh authHeader)) db)
  = fst (run w (h requester) db).
Proof.
  intros w Hpass. unfold route. rewrite run_bind.
  pose proof (auth_preserves_mem decode verify env (fresh authHeader) db) as Hdb.
  fold w in Hdb.
  destruct (run w (auth env (fresh authHeader)) db) as [[out s1] t1].
  simpl in Hpass, Hdb. subst out s1. simpl.
  destruct (run w (h requester) db) as [[b s2] t2]. reflexivity.
Qed.

(** *** Reading dreams *)

(** C9. On an authenticated request, GET /api/dreams answers 200 with the
    rows of [dreams] whose [user_id] is the [userId] of the query string,
    and GET /api/dreams/:id answers 200 with the one dream of that id,
    whoever the requester is; neither handler looks at the request
    context. *)
Theorem dream_reads_ignore_requester :
  forall (decode : string -> Decoded) (verify : string -> string -> bool)
         (env : Env) (authHeader : option string) (db : Mem.Db)
         (requester : Req) (q id : string) (d : Row),
    let w := mkWorld decode verify Mem.store Mem.store_many in
    fst (fst (run w (auth env (fresh authHeader)) db)) = (requester, None) ->
    q <> "" ->
    List.filter (Mem.matches "id" (Some (VStr id))) (Mem.table db "dreams") = [d] ->
    fst (fst (run w (route (auth env) (Dreams.get_all (Some q)) (fresh authHeader)) db))
      = Respond 200
          (BList (List.filter (Mem.matches "user_id" (Some (VStr q)))
                              (Mem.table db "dreams")) 0)
    /\ fst (fst (run w (route (auth env) (Dreams.get_by_id [] id) (fresh authHeader)) db))
      = Respond 200 (BSuccessData (Some d))
    /\ (forall req1 req2,
          Dreams.get_all (Some q) req1 = Dreams.get_all (Some q) req2 /\
          Dreams.get_by_id [] id req1 = Dreams.get_by_id [] id req2).
Proof.
  intros decode verify env authHeader db requester q id d w Hpass Hq Hd.
  apply String.eqb_neq in Hq.
  split; [|split; [|intros; split; reflexivity]].
  - rewrite (route_passes decode verify env _ authHeader db requester Hpass).
    unfold Dreams.get_all, handler; simpl. rewrite Hq. reflexivity.
  - rewrite (route_passes decode verify env _ authHeader db requester Hpass).
    unfold Dreams.get_by_id, handler; simpl. rewrite Hd. reflexivity.
Qed.

Lemma dream_reads_witness :
  fst (fst (run Toy.world
              (auth Toy.env (fresh (Some "Bearer .u2.local-secret"))) Toy.db))
    = (mkReq (Some "Bearer .u2.local-secret") (Some Toy.bob) (Some (VStr "u2")), None)
  /\ "u1" <> ""
  /\ fst (fst (run Toy.world
                 (route (auth Toy.env) (Dreams.get_all (Some "u1"))
                        (fresh (Some "Bearer .u2.local-secret"))) Toy.db))
    = Respond 200
        (BList (List.filter (Mem.matches "user_id" (Some (VStr "u1")))
                            (Mem.table Toy.db "dreams")) 0).
Proof.
  assert (Hq : "u1" <> "") by discriminate.
  split; [reflexivity|]. split; [exact Hq|].
  exact (proj1
    (dream_reads_ignore_requester Toy.decode Toy.verify Toy.env
       (Some "Bearer .u2.local-secret") Toy.db _ "u1" "d1" Toy.dream1
       eq_refl Hq eq_refl)).
Defined.

(** *** Writing profiles *)

Lemma strip_restricted_lookup (body : Row) (k : string) :
  get_prop k (Profile.strip_restricted body) =
  if bool_decide (k ∈ Profile.restricted_fields) then None else body !! k.
Proof.
  unfold Profile.strip_restricted, Profile.restricted_fields; simpl.
  case_bool_decide as Hk.
  - repeat (apply elem_of_cons in Hk as [-> | Hk];
            [rewrite ?lookup_delete_eq;
             repeat (rewrite lookup_delete_ne by discriminate);
             rewrite ?lookup_delete_eq; reflexivity|]).
    inversion Hk.
  - rewrite !lookup_delete_ne; [reflexivity|..];
      intros <-; apply Hk; repeat constructor.
Qed.

Lemma patch_row_frame (patch : Row) col v (k : string) (l : list Row) :
  patch !! k = None ->
  (fun r : Row => r !! k) <$> (Mem.patch_row patch col v <$> l)
  = (fun r : Row => r !! k) <$> l.
Proof.
  intros Hk. induction l as [|r l IH]; [reflexivity|].
  rewrite !fmap_cons, IH. f_equal.
  unfold Mem.patch_row. destruct (Mem.matches col v r); [|reflexivity].
  rewrite lookup_union_r by exact Hk. reflexivity.
Qed.

(** X28. With a JSON object as body, the only datastore call
    PUT /api/profile can make is an update of [profiles] restricted to the
    row whose [id] is the requester's [userId]; its patch holds none of id,
    tier, is_premium, created_at, updated_at and agrees with the body on
    every other key.  Over the reference datastore the five columns of
    every stored profile are the same after the request as before, and no
    other table changes. *)
Theorem profile_put_object_body_strips_restricted_fields :
  forall (errors : list string) (body : Row) (req : Req),
    (forall (S : Type) (w : World S) (s : S) (ev : Event),
        In ev (snd (run w (Profile.put errors (JObject body) req) s)) ->
        exists patch : Row,
          ev = EvQuery (Update "profiles" patch "id" (userId req) true) /\
          (forall k, k ∈ Profile.restricted_fields -> patch !! k = None) /\
          (forall k, k ∉ Profile.restricted_fields -> patch !! k = body !! k)) /\
    (forall decode verify (db : Mem.Db),
        let db' := snd (fst (run (mkWorld decode verify Mem.store Mem.store_many)
                                 (Profile.put errors (JObject body) req) db)) in
        (forall k, k ∈ Profile.restricted_fields ->
                   (fun r : Row => r !! k) <$> Mem.table db' "profiles"
                   = (fun r : Row => r !! k) <$> Mem.table db "profiles") /\
        (forall t, t <> "profiles" -> db' !! t = db !! t)).
Proof.
  intros errors body req.
  assert (Hstrip : exists patch : Row,
    Profile.strip_restricted (JObject body) = JObject patch /\
    forall k, patch !! k
              = if bool_decide (k ∈ Profile.restricted_fields) then None
                else body !! k).
  { eexists. split; [reflexivity|]. intros k.
    exact (strip_restricted_lookup body k). }
  destruct Hstrip as (patch & Hpatch & Hlook). split.
  - intros S w s ev. unfold Profile.put, handler. rewrite Hpatch.
    crunch; intros Hin; repeat (destruct Hin as [<- | Hin]); try contradiction;
      exists patch; (split; [reflexivity|]); split; intros k Hk;
      rewrite Hlook; case_bool_decide; tauto.
  - intros decode verify db db'. subst db'. unfold Profile.put, handler.
    rewrite Hpatch.
    destruct errors as [|e errors]; simpl; [|split; reflexivity].
    destruct (negb (truthy (userId req))); simpl; [split; reflexivity|].
    match goal with
    | |- context [Mem.single ?l] => destruct (Mem.single l) as [dt [er|]]
    end; simpl; [|destruct dt; simpl].
    all: split; [intros k Hk | intros t Ht; apply lookup_insert_ne; congruence].
    all: unfold Mem.table at 1; rewrite lookup_insert_eq; simpl.
    all: apply patch_row_frame; rewrite Hlook.
    all: rewrite bool_decide_eq_true_2 by exact Hk; reflexivity.
Qed.

Lemma profile_put_object_body_witness :
  let body : Row := {[ "tier" := VStr "premium"; "username" := VStr "bobby" ]} in
  let req := mkReq None (Some Toy.bob) (Some (VStr "u2")) in
  "tier" ∈ Profile.restricted_fields /\
  (fun r : Row => r !! "tier") <$>
    Mem.table (snd (fst (run Toy.world (Profile.put [] (JObject body) req) Toy.db)))
              "profiles"
  = [Some (VStr "premium"); Some (VStr "free")].
Proof.
  intros body req.
  assert (Hk : "tier" ∈ Profile.restricted_fields) by (repeat constructor).
  split; [exact Hk|].
  exact (proj1 (proj2 (profile_put_object_body_strips_restricted_fields [] body req)
                  Toy.decode Toy.verify Toy.db) "tier" Hk).
Defined.

Example profile_put_writes_other_fields :
  (fun r : Row => r !! "username") <$>
    Mem.table
      (snd (fst (run Toy.world
                   (Profile.put []
                      (JObject {[ "tier" := VStr "premium"; "username" := VStr "bobby" ]})
                      (mkReq None (Some Toy.bob) (Some (VStr "u2")))) Toy.db)))
      "profiles"
  = [None; Some (VStr "bobby")].
Proof. reflexivity. Qed.

(** With a JSON array as body the five [delete] statements remove nothing:
    an authenticated request sends the array to the datastore as it came,
    whatever its records hold. *)
Lemma profile_put_array_body_passes_through :
  forall (S : Type) (w : World S) (s : S) (items : list Row) (req : Req),
    truthy (userId req) = true ->
    Profile.strip_restricted (JArray items) = JArray items /\
    snd (run w (Profile.put [] (JArray items) req) s)
      = [EvQuery (UpdateArray "profiles" items "id" (userId req) true)].
Proof.
  intros S w s items req Hu. split; [reflexivity|].
  unfold Profile.put, handler; simpl. rewrite Hu; simpl.
  destruct (store w s _) as [r s1]; simpl.
  destruct (error r), (data r); reflexivity.
Qed.

(** C10 at its failing input. User u2 (tier "free") sends PUT /api/profile
    with the JSON array [[{"tier": "premium", "is_premium": true}]] as
    body.  The five [delete] statements find nothing to remove on an
    array, the array reaches [update] with both restricted keys, the reply
    is 200 and the stored profile of u2 has tier "premium" and
    [is_premium = true]. *)
Theorem profile_put_array_body_writes_restricted_fields :
  let header := Some "Bearer .u2.local-secret" in
  let record : Row := {[ "tier" := VStr "premium"; "is_premium" := VBool true ]} in
  let bob' : Row :=
    {[ "id" := VStr "u2"; "role" := VStr "user"; "tier" := VStr "premium";
       "is_premium" := VBool true ]} in
  "tier" ∈ Profile.restricted_fields /\
  "is_premium" ∈ Profile.restricted_fields /\
  Toy.bob !! "tier" = Some (VStr "free") /\
  run Toy.world
      (route (auth Toy.env) (Profile.put [] (JArray [record])) (fresh header)) Toy.db
  = (Respond 200 (BSuccessData (Some bob')),
     <["profiles" := [Toy.alice; bob']]> Toy.db,
     [EvDecode ".u2.local-secret"; EvVerify ".u2.local-secret" "local-secret";
      EvQuery (SelectSingle "profiles" "id" (Some (VStr "u2")));
      EvQuery (UpdateArray "profiles" [record] "id" (Some (VStr "u2")) true)]).
Proof.
  repeat apply conj; try reflexivity; repeat constructor.
Qed.

(** *** The ownership guard *)

Section Guarded.
Context {S : Type} (w : World S) (s : S) (req : Req).

(** X14. POST /api/subscriptions: a denied request gets 403 and reaches no
    mutation; a mutation happens only past the guard. *)
Lemma subscriptions_post_guarded (errors : list string) (body : Row) :
  let out := run w (Subscriptions.post errors body req) s in
  (not_permitted (body !! "user_id") req = inr true -> errors = [] ->
   fst (fst out) = Next (ApiError 403 "Cannot create subscription for another user")
   /\ snd out = []) /\
  (List.filter mutating (snd out) <> [] ->
   not_permitted (body !! "user_id") req = inr false).
Proof.
  simpl. unfold Subscriptions.post, handler. split.
  - intros Hden ->. simpl. rewrite Hden. split; reflexivity.
  - crunch; intros Hmut; try reflexivity; exfalso; apply Hmut; reflexivity.
Qed.

(** X16. PUT /api/subscriptions/:id/cancel, once the subscription has been
    fetched: a request the guard denies gets 403 and sends no mutation; a
    mutation is sent only when the guard lets the request through. *)
Lemma subscriptions_cancel_guarded (now id : string) (subscription : Row) :
  data (fst (store w s (SelectSingle "subscriptions" "id" (Some (VStr id)))))
    = Some subscription ->
  error (fst (store w s (SelectSingle "subscriptions" "id" (Some (VStr id)))))
    = None ->
  let out := run w (Subscriptions.cancel now id req) s in
  (not_permitted (subscription !! "user_id") req = inr true ->
   fst (fst out) = Next (ApiError 403 "Cannot cancel subscription for another user")
   /\ List.filter mutating (snd out) = []) /\
  (List.filter mutating (snd out) <> [] ->
   not_permitted (subscription !! "user_id") req = inr false).
Proof.
  intros Hd He. simpl. unfold Subscriptions.cancel, handler; simpl.
  destruct (store w s _) as [f s1]; simpl in *. rewrite He, Hd.
  destruct (not_permitted _ req) as [e | [|]]; simpl.
  - split; [discriminate | intros Hmut; exfalso; apply Hmut; reflexivity].
  - split; [split; reflexivity | intros Hmut; exfalso; apply Hmut; reflexivity].
  - split; [discriminate | reflexivity].
Qed.

(** X15. PUT /api/subscriptions/:id with a valid body, once the
    subscription has been fetched: a request the guard denies gets 403 and
    sends no mutation; a mutation is sent only when the guard lets the
    request through. *)
Lemma subscriptions_put_guarded (id : string) (body : ReqBody) (subscription : Row) :
  data (fst (store w s (SelectSingle "subscriptions" "id" (Some (VStr id)))))
    = Some subscription ->
  error (fst (store w s (SelectSingle "subscriptions" "id" (Some (VStr id)))))
    = None ->
  let out := run w (Subscriptions.put [] id body req) s in
  (not_permitted (subscription !! "user_id") req = inr true ->
   fst (fst out) = Next (ApiError 403 "Cannot update subscription for another user")
   /\ List.filter mutating (snd out) = []) /\
  (List.filter mutating (snd out) <> [] ->
   not_permitted (subscription !! "user_id") req = inr false).
Proof.
  intros Hd He. simpl. unfold Subscriptions.put, handler; simpl.
  destruct (store w s _) as [f s1]; simpl in *. rewrite He, Hd.
  destruct (not_permitted _ req) as [e | [|]]; simpl.
  - split; [discriminate | intros Hmut; exfalso; apply Hmut; reflexivity].
  - split; [split; reflexivity | intros Hmut; exfalso; apply Hmut; reflexivity].
  - split; [discriminate | reflexivity].
Qed.

(** The dream handlers go to the datastore without reading the request
    context: there is no guard to pass. *)
Lemma dreams_mutations_unguarded (id : string) (body : Row) :
  exists k1 k2,
    Dreams.put [] id body req
      = Query (Update "dreams" (delete "user_id" body) "id" (Some (VStr id)) true) k1
    /\ Dreams.del [] id req = Query (Delete "dreams" "id" (Some (VStr id))) k2.
Proof. eexists _, _. split; reflexivity. Qed.
End Guarded.

(** C2 at its failing input. User u2 (role "user") holds a valid token;
    dream d1 belongs to u1, so the guard would deny.  PUT /api/dreams/d1
    and DELETE /api/dreams/d1 nevertheless answer 200 and the update,
    respectively the deletion, is in the datastore. *)
Theorem dreams_put_delete_by_non_owner_persisted :
  let header := Some "Bearer .u2.local-secret" in
  let requester := mkReq header (Some Toy.bob) (Some (VStr "u2")) in
  let lookup := EvQuery (SelectSingle "profiles" "id" (Some (VStr "u2"))) in
  let patch : Row := {[ "title" := VStr "overwritten" ]} in
  let dream1' : Row :=
    {[ "id" := VStr "d1"; "user_id" := VStr "u1"; "title" := VStr "overwritten" ]} in
  fst (fst (run Toy.world (auth Toy.env (fresh header)) Toy.db)) = (requester, None) /\
  not_permitted (Toy.dream1 !! "user_id") requester = inr true /\
  run Toy.world (route (auth Toy.env) (Dreams.put [] "d1" patch) (fresh header)) Toy.db
  = (Respond 200 (BSuccessData (Some dream1')),
     <["dreams" := [dream1']]> Toy.db,
     [EvDecode ".u2.local-secret"; EvVerify ".u2.local-secret" "local-secret"; lookup;
      EvQuery (Update "dreams" patch "id" (Some (VStr "d1")) true)]) /\
  run Toy.world (route (auth Toy.env) (Dreams.del [] "d1") (fresh header)) Toy.db
  = (Respond 200 BSuccess,
     <["dreams" := []]> Toy.db,
     [EvDecode ".u2.local-secret"; EvVerify ".u2.local-secret" "local-secret"; lookup;
      EvQuery (Delete "dreams" "id" (Some (VStr "d1")))]).
Proof. repeat apply conj; reflexivity. Qed.

(** The same requester is refused on the subscription of u1. *)
Example subscription_cancel_by_non_owner_refused :
  run Toy.world
      (route (auth Toy.env) (Subscriptions.cancel "2025-01-01T00:00:00.000Z" "s1")
             (fresh (Some "Bearer .u2.local-secret"))) Toy.db
  = (Next (ApiError 403 "Cannot cancel subscription for another user"),
     Toy.db,
     [EvDecode ".u2.local-secret"; EvVerify ".u2.local-secret" "local-secret";
      EvQuery (SelectSingle "profiles" "id" (Some (VStr "u2")));
      EvQuery (SelectSingle "subscriptions" "id" (Some (VStr "s1")))]).
Proof. reflexivity. Qed.

Example toy_bob :
  run Toy.world (auth Toy.env (fresh (Some "Bearer .u2.local-secret"))) Toy.db
  = ((mkReq (Some "Bearer .u2.local-secret") (Some Toy.bob) (Some (VStr "u2")), None),
     Toy.db,
     [EvDecode ".u2.local-secret"; EvVerify ".u2.local-secret" "local-secret";
      EvQuery (SelectSingle "profiles" "id" (Some (VStr "u2")))]).
Proof. reflexivity. Qed.

(* ===================================================================== *)
(** ** Further properties of the middleware *)
(* ===================================================================== *)

Lemma toy_resolved_bob : resolved Toy.world Toy.db (Some (VStr "u2")) Toy.bob.
Proof. split; reflexivity. Defined.

(** X1. The accepting path: a header with a bearer token that verifies
    under the secret of its branch, and a lookup that returns a row without
    error, make both variants call [next()] with that row as [user] and its
    [id] as [userId]. *)
Theorem verified_and_resolved_is_attached :
  forall (S : Type) (w : World S) (env : Env) (authHeader : option string)
         (token : string) (issuer : Issuer) (subj : option JsVal) (s : S) (u : Row),
    bearer_of authHeader token ->
    verifies w env token issuer subj ->
    resolved w s subj u ->
    fst (fst (run w (auth env (fresh authHeader)) s))
      = (mkReq authHeader (Some u) (u !! "id"), None) /\
    fst (fst (run w (optionalAuth env (fresh authHeader)) s))
      = (mkReq authHeader (Some u) (u !! "id"), None).
Proof.
  intros S w env authHeader token issuer subj s u Hb Hv [He Hd].
  rewrite (auth_verified_outcome w env _ _ _ _ s Hb Hv).
  rewrite (optionalAuth_verified_outcome w env _ _ _ _ s Hb Hv).
  rewrite He, Hd. split; reflexivity.
Qed.

Lemma verified_and_resolved_witness :
  resolved Toy.world Toy.db (Some (VStr "u2")) Toy.bob /\
  fst (fst (run Toy.world
              (auth Toy.env (fresh (Some "Bearer .u2.local-secret"))) Toy.db))
    = (mkReq (Some "Bearer .u2.local-secret") (Some Toy.bob) (Toy.bob !! "id"), None).
Proof.
  split; [exact toy_resolved_bob|].
  exact (proj1
    (verified_and_resolved_is_attached _ Toy.world Toy.env _ _ _ _ Toy.db Toy.bob
       toy_bearer_bob (toy_verifies_bob _ _) toy_resolved_bob)).
Defined.

(** X2. [optionalAuth] never calls [next] with an error, whatever the
    header, the token, the configuration and the datastore do. *)
Theorem optionalAuth_never_rejects :
  forall (S : Type) (w : World S) (env : Env) (req : Req) (s : S),
    snd (fst (fst (run w (optionalAuth env req) s))) = None.
Proof.
  intros S w env req s. unfold optionalAuth. crunch; reflexivity.
Qed.

(** X3. Whatever [auth] accepts, [optionalAuth] accepts with the same
    identity attached. *)
Theorem optionalAuth_accepts_what_auth_accepts :
  forall (S : Type) (w : World S) (env : Env) (authHeader : option string) (s : S)
         (req' : Req),
    fst (fst (run w (auth env (fresh authHeader)) s)) = (req', None) ->
    fst (fst (run w (optionalAuth env (fresh authHeader)) s)) = (req', None).
Proof.
  intros S w env authHeader s req'. unfold auth, optionalAuth, fresh.
  crunch; intros H; inversion H; subst; try reflexivity; congruence.
Qed.

Lemma optionalAuth_accepts_what_auth_accepts_witness :
  fst (fst (run Toy.world
              (auth Toy.env (fresh (Some "Bearer .u2.local-secret"))) Toy.db))
    = (mkReq (Some "Bearer .u2.local-secret") (Some Toy.bob) (Some (VStr "u2")), None)
  /\
  fst (fst (run Toy.world
              (optionalAuth Toy.env (fresh (Some "Bearer .u2.local-secret"))) Toy.db))
    = (mkReq (Some "Bearer .u2.local-secret") (Some Toy.bob) (Some (VStr "u2")), None).
Proof.
  split; [reflexivity|].
  exact (optionalAuth_accepts_what_auth_accepts _ Toy.world Toy.env
           (Some "Bearer .u2.local-secret") Toy.db
           (mkReq (Some "Bearer .u2.local-secret") (Some Toy.bob) (Some (VStr "u2")))
           eq_refl).
Defined.

(** X4. In [optionalAuth], a payload without a truthy [sub] gets an
    identity attached only if it has a truthy [id], JWT_SECRET is configured
    and [jwt.verify] accepts the token under it. *)
Theorem optionalAuth_id_branch_requires_verification :
  forall (S : Type) (w : World S) (env : Env) (authHeader : option string)
         (token : string) (payload : Row) (s : S),
    bearer_of authHeader token ->
    jwt_decode w token = DecObject payload ->
    truthy (payload !! "sub") = false ->
    is_Some (user (fst (fst (fst (run w (optionalAuth env (fresh authHeader)) s))))) ->
    truthy (payload !! "id") = true /\
    exists secret,
      JWT_SECRET env = Some secret /\ secret <> "" /\
      jwt_verify w token secret = true /\
      In (EvVerify token secret)
         (snd (run w (optionalAuth env (fresh authHeader)) s)).
Proof.
  intros S w env authHeader token payload s (h & -> & Hpre & Htok & Hne) Hdec Hsub.
  apply String.eqb_neq in Hne.
  assert (Hh : String.eqb h "" = false).
  { destruct h; [discriminate Hpre | reflexivity]. }
  unfold optionalAuth, fresh; simpl. unfold startsWith in *.
  rewrite Hh, Hpre, Htok; simpl. rewrite Hne; simpl. rewrite Hdec, Hsub; simpl.
  destruct (truthy (payload !! "id")); simpl; [|intros [x Hx]; discriminate].
  destruct (JWT_SECRET env) as [secret|]; simpl; [|intros [x Hx]; discriminate].
  destruct (String.eqb secret "") eqn:Hs; simpl; [intros [x Hx]; discriminate|].
  apply String.eqb_neq in Hs.
  destruct (jwt_verify w token secret) eqn:Hv; simpl;
    [|intros [x Hx]; discriminate].
  intros _. split; [reflexivity|]. exists secret.
  repeat (split; [assumption || reflexivity|]).
  destruct (store w s _) as [r s1]; simpl.
  destruct (error r), (data r); simpl; tauto.
Qed.

Lemma optionalAuth_id_branch_witness :
  is_Some (user (fst (fst (fst (run Toy.world
             (optionalAuth Toy.env (fresh (Some "Bearer .u2.local-secret")))
             Toy.db))))) /\
  truthy (({[ "id" := VStr "u2" ]} : Row) !! "id") = true.
Proof.
  assert (H : is_Some (user (fst (fst (fst (run Toy.world
             (optionalAuth Toy.env (fresh (Some "Bearer .u2.local-secret")))
             Toy.db)))))) by (exists Toy.bob; reflexivity).
  split; [exact H|].
  exact (proj1
    (optionalAuth_id_branch_requires_verification _ Toy.world Toy.env _ _
       ({[ "id" := VStr "u2" ]} : Row) Toy.db toy_bearer_bob eq_refl eq_refl H)).
Defined.

Lemma auth_attaches_only_verified_witness :
  snd (fst (fst (run Toy.world
                   (auth Toy.env (fresh (Some "Bearer .u2.local-secret"))) Toy.db)))
    = None /\
  exists token issuer subj secret,
    bearer_of (Some "Bearer .u2.local-secret") token /\
    verifies Toy.world Toy.env token issuer subj /\
    issuer_secret Toy.env issuer = Some secret /\
    List.filter verifying
      (snd (run Toy.world
              (auth Toy.env (fresh (Some "Bearer .u2.local-secret"))) Toy.db))
      = [EvVerify token secret].
Proof.
  split; [reflexivity|].
  exact (auth_attaches_only_verified _ Toy.world Toy.env
           (Some "Bearer .u2.local-secret") Toy.db eq_refl).
Defined.

Lemma auth_rejections_are_401_witness :
  snd (fst (fst (run Toy.world
                   (auth Toy.env (fresh (Some "Bearer u1..forged"))) Toy.db)))
    = Some (ApiError 401 "Invalid or expired token") /\
  errorHandler_status (ApiError 401 "Invalid or expired token") = 401.
Proof.
  split; [reflexivity|].
  exact (proj1 (proj2
    (auth_rejections_are_401 _ Toy.world Toy.env (Some "Bearer u1..forged") Toy.db
       (ApiError 401 "Invalid or expired token") eq_refl))).
Defined.

Lemma legacy_auth_missing_secret_witness :
  JWT_SECRET (mkEnv (Some "platform-secret") None) = None /\
  run Toy.world
      (Legacy.auth (mkEnv (Some "platform-secret") None)
                   (fresh (Some "Bearer .u2.local-secret"))) Toy.db
  = ((fresh (Some "Bearer .u2.local-secret"),
      Some (ApiError 500 "JWT secret not configured")), Toy.db, []).
Proof.
  split; [reflexivity|].
  exact (legacy_auth_missing_secret_is_500 _ Toy.world
           (mkEnv (Some "platform-secret") None) _ _ Toy.db toy_bearer_bob eq_refl).
Defined.

Lemma toy_bearer_both :
  bearer_of (Some "Bearer u1.u2.platform-secret") "u1.u2.platform-secret".
Proof.
  exists "Bearer u1.u2.platform-secret".
  split; [reflexivity|]. split; [reflexivity|].
  split; [reflexivity | discriminate].
Defined.

Lemma auth_both_claims_witness :
  truthy (({[ "sub" := VStr "u1"; "id" := VStr "u2" ]} : Row) !! "id") = true /\
  List.filter verifying
    (snd (run Toy.world
            (auth Toy.env (fresh (Some "Bearer u1.u2.platform-secret"))) Toy.db))
    = [EvVerify "u1.u2.platform-secret" "platform-secret"].
Proof.
  split; [reflexivity|].
  assert (Hs : "platform-secret" <> "") by discriminate.
  exact (proj1
    (auth_both_claims_uses_platform_secret _ Toy.world Toy.env _ _ "platform-secret"
       ({[ "sub" := VStr "u1"; "id" := VStr "u2" ]} : Row) Toy.db
       toy_bearer_both eq_refl eq_refl eq_refl eq_refl Hs)).
Defined.

(** *** The earlier middleware *)

(** X9. The earlier strict middleware attaches an identity only to a
    bearer token that [jwt.verify] accepts under JWT_SECRET, and that check
    is the only signature check of the request. *)
Theorem legacy_auth_attaches_only_verified :
  forall (S : Type) (w : World S) (env : Env) (authHeader : option string) (s : S),
    snd (fst (fst (run w (Legacy.auth env (fresh authHeader)) s))) = None ->
    exists token secret,
      bearer_of authHeader token /\
      JWT_SECRET env = Some secret /\ secret <> "" /\
      jwt_verify w token secret = true /\
      List.filter verifying (snd (run w (Legacy.auth env (fresh authHeader)) s))
        = [EvVerify token secret].
Proof.
  intros S w env authHeader s. unfold Legacy.auth, fresh.
  crunch; try discriminate; intros _;
    lazymatch goal with
    | Hh : (String.eqb ?h "" || negb (startsWith "Bearer " ?h)) = false,
      Ht : split _ ?h !! 1%nat = Some ?token,
      Hne : String.eqb ?token "" = false,
      Hv : jwt_verify _ ?token ?secret = true,
      Hs : String.eqb ?secret "" = false |- _ =>
        apply orb_false_elim in Hh; destruct Hh as [_ Hh];
        apply negb_false_iff in Hh;
        apply String.eqb_neq in Hne, Hs;
        exists token, secret;
        split; [exists h; tauto|];
        repeat (split; [assumption || reflexivity|]); reflexivity
    end.
Qed.

Lemma legacy_auth_attaches_only_verified_witness :
  snd (fst (fst (run Toy.world
                   (Legacy.auth Toy.env (fresh (Some "Bearer .u2.local-secret")))
                   Toy.db))) = None /\
  exists token secret,
    bearer_of (Some "Bearer .u2.local-secret") token /\
    JWT_SECRET Toy.env = Some secret /\ secret <> "" /\
    jwt_verify Toy.world token secret = true /\
    List.filter verifying
      (snd (run Toy.world
              (Legacy.auth Toy.env (fresh (Some "Bearer .u2.local-secret")))
              Toy.db))
      = [EvVerify token secret].
Proof.
  split; [reflexivity|].
  exact (legacy_auth_attaches_only_verified _ Toy.world Toy.env
           (Some "Bearer .u2.local-secret") Toy.db eq_refl).
Defined.

(** X10. The earlier lenient middleware is not lenient about
    configuration: once a bearer token has been extracted, a missing or
    empty JWT_SECRET makes it call [next] with a 500 error, before any
    collaborator is touched. *)
Theorem legacy_optionalAuth_missing_secret_is_500 :
  forall (S : Type) (w : World S) (env : Env) (authHeader : option string)
         (token : string) (s : S),
    bearer_of authHeader token ->
    JWT_SECRET env = None \/ JWT_SECRET env = Some "" ->
    run w (LegacyLenient.optionalAuth env (fresh authHeader)) s
    = ((fresh authHeader, Some (ApiError 500 "JWT secret not configured")), s, []).
Proof.
  intros S w env authHeader token s (h & -> & Hpre & Htok & Hne) Hsec.
  apply String.eqb_neq in Hne.
  assert (Hh : String.eqb h "" = false).
  { destruct h; [discriminate Hpre | reflexivity]. }
  unfold LegacyLenient.optionalAuth, fresh; simpl. unfold startsWith in *.
  rewrite Hh, Hpre, Htok; simpl. rewrite Hne.
  destruct Hsec as [-> | ->]; reflexivity.
Qed.

Lemma legacy_optionalAuth_missing_secret_witness :
  (JWT_SECRET (mkEnv (Some "platform-secret") None) = None \/
   JWT_SECRET (mkEnv (Some "platform-secret") None) = Some "") /\
  run Toy.world
      (LegacyLenient.optionalAuth (mkEnv (Some "platform-secret") None)
                                  (fresh (Some "Bearer .u2.local-secret"))) Toy.db
  = ((fresh (Some "Bearer .u2.local-secret"),
      Some (ApiError 500 "JWT secret not configured")), Toy.db, []).
Proof.
  assert (H : JWT_SECRET (mkEnv (Some "platform-secret") None) = None \/
              JWT_SECRET (mkEnv (Some "platform-secret") None) = Some "")
    by (left; reflexivity).
  split; [exact H|].
  exact (legacy_optionalAuth_missing_secret_is_500 _ Toy.world
           (mkEnv (Some "platform-secret") None) _ _ Toy.db toy_bearer_bob H).
Defined.

(** X11. The earlier lenient middleware attaches an identity only to a
    bearer token that [jwt.verify] accepts under JWT_SECRET: it has no
    branch that skips the signature check. *)
Theorem legacy_optionalAuth_attaches_only_verified :
  forall (S : Type) (w : World S) (env : Env) (authHeader : option string) (s : S),
    is_Some (user (fst (fst (fst
      (run w (LegacyLenient.optionalAuth env (fresh authHeader)) s))))) ->
    exists token secret,
      bearer_of authHeader token /\
      JWT_SECRET env = Some secret /\ secret <> "" /\
      jwt_verify w token secret = true.
Proof.
  intros S w env authHeader s. unfold LegacyLenient.optionalAuth, fresh.
  crunch; intros [x Hx]; try discriminate;
    lazymatch goal with
    | Hh : (String.eqb ?h "" || negb (startsWith "Bearer " ?h)) = false,
      Ht : split _ ?h !! 1%nat = Some ?token,
      Hne : String.eqb ?token "" = false,
      Hv : jwt_verify _ ?token ?secret = true,
      Hs : String.eqb ?secret "" = false |- _ =>
        apply orb_false_elim in Hh; destruct Hh as [_ Hh];
        apply negb_false_iff in Hh;
        apply String.eqb_neq in Hne, Hs;
        exists token, secret;
        split; [exists h; tauto|]; tauto
    end.
Qed.

Lemma legacy_optionalAuth_attaches_only_verified_witness :
  is_Some (user (fst (fst (fst
    (run Toy.world
       (LegacyLenient.optionalAuth Toy.env (fresh (Some "Bearer .u2.local-secret")))
       Toy.db))))) /\
  exists token secret,
    bearer_of (Some "Bearer .u2.local-secret") token /\
    JWT_SECRET Toy.env = Some secret /\ secret <> "" /\
    jwt_verify Toy.world token secret = true.
Proof.
  assert (H : is_Some (user (fst (fst (fst
    (run Toy.world
       (LegacyLenient.optionalAuth Toy.env (fresh (Some "Bearer .u2.local-secret")))
       Toy.db)))))) by (exists Toy.bob; reflexivity).
  split; [exact H|].
  exact (legacy_optionalAuth_attaches_only_verified _ Toy.world Toy.env
           (Some "Bearer .u2.local-secret") Toy.db H).
Defined.

(* ===================================================================== *)
(** ** Further properties of the subscription handlers *)
(* ===================================================================== *)

Lemma subscriptions_post_guarded_witness :
  not_permitted
    (({[ "user_id" := VStr "u1"; "tier" := VStr "premium" ]} : Row) !! "user_id")
    toy_requester_bob = inr true /\
  fst (fst (run Toy.world
              (Subscriptions.post []
                 {[ "user_id" := VStr "u1"; "tier" := VStr "premium" ]}
                 toy_requester_bob) Toy.db))
    = Next (ApiError 403 "Cannot create subscription for another user").
Proof.
  split; [reflexivity|].
  exact (proj1 (proj1
    (subscriptions_post_guarded Toy.world Toy.db toy_requester_bob []
       {[ "user_id" := VStr "u1"; "tier" := VStr "premium" ]}) eq_refl eq_refl)).
Defined.

Lemma subscriptions_cancel_guarded_witness :
  data (fst (store Toy.world Toy.db
               (SelectSingle "subscriptions" "id" (Some (VStr "s1")))))
    = Some Toy.sub1 /\
  not_permitted (Toy.sub1 !! "user_id") toy_requester_bob = inr true /\
  fst (fst (run Toy.world
              (Subscriptions.cancel "2025-01-01T00:00:00.000Z" "s1" toy_requester_bob)
              Toy.db))
    = Next (ApiError 403 "Cannot cancel subscription for another user").
Proof.
  split; [reflexivity|]. split; [reflexivity|].
  exact (proj1 (proj1
    (subscriptions_cancel_guarded Toy.world Toy.db toy_requester_bob
       "2025-01-01T00:00:00.000Z" "s1" Toy.sub1 eq_refl eq_refl) eq_refl)).
Defined.

Lemma subscriptions_put_guarded_witness :
  data (fst (store Toy.world Toy.db
               (SelectSingle "subscriptions" "id" (Some (VStr "s1")))))
    = Some Toy.sub1 /\
  not_permitted (Toy.sub1 !! "user_id") toy_requester_bob = inr true /\
  fst (fst (run Toy.world
              (Subscriptions.put [] "s1" (JObject {[ "tier" := VStr "free" ]})
                 toy_requester_bob)
              Toy.db))
    = Next (ApiError 403 "Cannot update subscription for another user").
Proof.
  split; [reflexivity|]. split; [reflexivity|].
  exact (proj1 (proj1
    (subscriptions_put_guarded Toy.world Toy.db toy_requester_bob
       "s1" (JObject {[ "tier" := VStr "free" ]}) Toy.sub1 eq_refl eq_refl) eq_refl)).
Defined.

(** Over the reference datastore a table other than the one written keeps
    its rows. *)
Lemma table_insert_ne (db : Mem.Db) (t t' : string) (l : list Row) :
  t <> t' -> Mem.table (<[t := l]> db) t' = Mem.table db t'.
Proof. intros Hne. unfold Mem.table. rewrite lookup_insert_ne by exact Hne. reflexivity. Qed.

Lemma table_insert_eq (db : Mem.Db) (t : string) (l : list Row) :
  Mem.table (<[t := l]> db) t = l.
Proof. unfold Mem.table. rewrite lookup_insert_eq. reflexivity. Qed.

(** X17. A permitted cancellation over the reference datastore: the reply
    is 200 with the cancelled subscription; the subscription of that id gets
    status "cancelled" and [end_date = now]; every profile whose id is the
    subscription's owner gets tier "free" and [is_premium = false]; nothing
    else changes. *)
Theorem cancel_downgrades_owner :
  forall (decode : string -> Decoded) (verify : string -> string -> bool)
         (db : Mem.Db) (now id : string) (req : Req) (subscription : Row),
    let w := mkWorld decode verify Mem.store Mem.store_many in
    let cancelled : Row := {[ "status" := VStr "cancelled"; "end_date" := VStr now ]} in
    let freed : Row := {[ "tier" := VStr "free"; "is_premium" := VBool false ]} in
    List.filter (Mem.matches "id" (Some (VStr id))) (Mem.table db "subscriptions")
      = [subscription] ->
    not_permitted (subscription !! "user_id") req = inr false ->
    let out := run w (Subscriptions.cancel now id req) db in
    fst (fst out) = Respond 200 (BSuccessData (Some (cancelled ∪ subscription))) /\
    Mem.table (snd (fst out)) "subscriptions"
      = Mem.patch_row cancelled "id" (Some (VStr id)) <$> Mem.table db "subscriptions" /\
    Mem.table (snd (fst out)) "profiles"
      = Mem.patch_row freed "id" (subscription !! "user_id") <$> Mem.table db "profiles" /\
    (forall t, t <> "subscriptions" -> t <> "profiles" ->
               snd (fst out) !! t = db !! t).
Proof.
  intros decode verify db now id req subscription w cancelled freed Hone Hperm.
  unfold Subscriptions.cancel, handler; simpl.
  rewrite Hone; simpl. rewrite Hperm; simpl. rewrite Hone; simpl.
  split; [reflexivity|]. split; [|split].
  - rewrite table_insert_ne by discriminate. apply table_insert_eq.
  - rewrite table_insert_eq. rewrite table_insert_ne by discriminate. reflexivity.
  - intros t Hs Hp. rewrite !lookup_insert_ne by congruence. reflexivity.
Qed.

Lemma cancel_downgrades_owner_witness :
  List.filter (Mem.matches "id" (Some (VStr "s1"))) (Mem.table Toy.db "subscriptions")
    = [Toy.sub1] /\
  not_permitted (Toy.sub1 !! "user_id") toy_requester_alice = inr false /\
  Mem.table
    (snd (fst (run Toy.world
                 (Subscriptions.cancel "2025-01-01T00:00:00.000Z" "s1"
                    toy_requester_alice) Toy.db))) "profiles"
  = Mem.patch_row {[ "tier" := VStr "free"; "is_premium" := VBool false ]}
      "id" (Toy.sub1 !! "user_id") <$> Mem.table Toy.db "profiles".
Proof.
  split; [reflexivity|]. split; [reflexivity|].
  exact (proj1 (proj2 (proj2
    (cancel_downgrades_owner Toy.decode Toy.verify Toy.db
       "2025-01-01T00:00:00.000Z" "s1" toy_requester_alice Toy.sub1
       eq_refl eq_refl)))).
Defined.

(** X18. Whatever POST /api/subscriptions sends to the datastore is either
    the insertion of the body into [subscriptions] or an update of the
    profile whose id is the body's [user_id], setting [tier] to the body's
    tier and [is_premium] to whether that tier is not the string "free". *)
Theorem create_keeps_premium_flag_in_step :
  forall (S : Type) (w : World S) (s : S) (errors : list string) (body : Row)
         (req : Req) (ev : Event),
    In ev (snd (run w (Subscriptions.post errors body req) s)) ->
    ev = EvQuery (InsertReturning "subscriptions" body) \/
    exists patch,
      ev = EvQuery (Update "profiles" patch "id" (body !! "user_id") false) /\
      patch !! "tier" = body !! "tier" /\
      patch !! "is_premium"
        = Some (VBool (negb (bool_decide (body !! "tier" = Some (VStr "free"))))).
Proof.
  intros S w s errors body req ev. unfold Subscriptions.post, handler.
  assert (Hpatch : forall t : option JsVal,
    Subscriptions.tier_patch t !! "tier" = t /\
    Subscriptions.tier_patch t !! "is_premium"
      = Some (VBool (negb (bool_decide (t = Some (VStr "free")))))).
  { intros [x|]; unfold Subscriptions.tier_patch, with_prop, strict_eq; split.
    - apply lookup_insert_eq.
    - rewrite lookup_insert_ne by discriminate. apply lookup_singleton_eq.
    - rewrite lookup_delete_eq. reflexivity.
    - rewrite lookup_delete_ne by discriminate. apply lookup_singleton_eq. }
  crunch; intros Hin; repeat (destruct Hin as [<- | Hin]); try contradiction;
    try (left; reflexivity);
    right; eexists; (split; [reflexivity | apply Hpatch]).
Qed.

Lemma create_keeps_premium_flag_witness :
  In (EvQuery (Update "profiles"
                 (Subscriptions.tier_patch (Some (VStr "premium")))
                 "id" (Some (VStr "u2")) false))
     (snd (run Toy.world
             (Subscriptions.post []
                {[ "user_id" := VStr "u2"; "tier" := VStr "premium" ]}
                toy_requester_bob) Toy.db)) /\
  (EvQuery (Update "profiles" (Subscriptions.tier_patch (Some (VStr "premium")))
              "id" (Some (VStr "u2")) false)
   = EvQuery (InsertReturning "subscriptions"
                {[ "user_id" := VStr "u2"; "tier" := VStr "premium" ]}) \/
   exists patch,
     EvQuery (Update "profiles" (Subscriptions.tier_patch (Some (VStr "premium")))
                "id" (Some (VStr "u2")) false)
     = EvQuery (Update "profiles" patch "id"
                  (({[ "user_id" := VStr "u2"; "tier" := VStr "premium" ]} : Row)
                     !! "user_id") false) /\
     patch !! "tier"
       = ({[ "user_id" := VStr "u2"; "tier" := VStr "premium" ]} : Row) !! "tier" /\
     patch !! "is_premium"
       = Some (VBool (negb (bool_decide
           (({[ "user_id" := VStr "u2"; "tier" := VStr "premium" ]} : Row) !! "tier"
            = Some (VStr "free")))))).
Proof.
  assert (Hin :
    In (EvQuery (Update "profiles"
                   (Subscriptions.tier_patch (Some (VStr "premium")))
                   "id" (Some (VStr "u2")) false))
       (snd (run Toy.world
               (Subscriptions.post []
                  {[ "user_id" := VStr "u2"; "tier" := VStr "premium" ]}
                  toy_requester_bob) Toy.db))).
  { right; left; reflexivity. }
  split; [exact Hin|].
  exact (create_keeps_premium_flag_in_step _ Toy.world Toy.db []
           {[ "user_id" := VStr "u2"; "tier" := VStr "premium" ]}
           toy_requester_bob _ Hin).
Defined.

(* ===================================================================== *)
(** ** Further properties of the dream handlers *)
(* ===================================================================== *)

(** X19. PUT /api/dreams/:id with a JSON object as body never writes
    [user_id]: the one call it can make is an update of the dream of that
    id whose patch is the body without [user_id], and over the reference
    datastore the [user_id] column of [dreams] is the same after the
    request as before and no other table changes.  With a JSON array as
    body, [delete updates.user_id] removes nothing and the one call it can
    make sends the array as it came. *)
Theorem dream_update_object_body_keeps_owner :
  forall (errors : list string) (id : string) (req : Req),
    (forall body : Row,
        (forall (S : Type) (w : World S) (s : S) (ev : Event),
            In ev (snd (run w (Dreams.put errors id (JObject body) req) s)) ->
            exists patch : Row,
              ev = EvQuery (Update "dreams" patch "id" (Some (VStr id)) true) /\
              patch !! "user_id" = None /\
              (forall k, k <> "user_id" -> patch !! k = body !! k)) /\
        (forall decode verify (db : Mem.Db),
            let db' := snd (fst (run (mkWorld decode verify Mem.store Mem.store_many)
                                     (Dreams.put errors id (JObject body) req) db)) in
            (fun r : Row => r !! "user_id") <$> Mem.table db' "dreams"
            = (fun r : Row => r !! "user_id") <$> Mem.table db "dreams" /\
            (forall t, t <> "dreams" -> db' !! t = db !! t))) /\
    (forall (items : list Row) (S : Type) (w : World S) (s : S) (ev : Event),
        In ev (snd (run w (Dreams.put errors id (JArray items) req) s)) ->
        ev = EvQuery (UpdateArray "dreams" items "id" (Some (VStr id)) true)).
Proof.
  intros errors id req. split; [intros body; split|].
  - intros S w s ev. unfold Dreams.put, handler; simpl.
    crunch; intros Hin; repeat (destruct Hin as [<- | Hin]); try contradiction;
      exists (delete "user_id" body);
      (split; [reflexivity|]); (split; [apply lookup_delete_eq|]);
      intros k Hk; apply lookup_delete_ne; congruence.
  - intros decode verify db db'. subst db'. unfold Dreams.put, handler.
    destruct errors as [|e errors]; simpl; [|split; reflexivity].
    match goal with
    | |- context [Mem.single ?l] => destruct (Mem.single l) as [dt [er|]]
    end; simpl; [|destruct dt; simpl].
    all: split; [|intros t Ht; apply lookup_insert_ne; congruence].
    all: rewrite table_insert_eq; apply patch_row_frame; apply lookup_delete_eq.
  - intros items S w s ev. unfold Dreams.put, handler; simpl.
    crunch; intros Hin; repeat (destruct Hin as [<- | Hin]); try contradiction;
      reflexivity.
Qed.

Lemma dream_update_object_body_witness :
  (fun r : Row => r !! "user_id") <$>
    Mem.table
      (snd (fst (run Toy.world
                   (Dreams.put [] "d1"
                      (JObject {[ "user_id" := VStr "u2"; "title" := VStr "mine now" ]})
                      toy_requester_bob) Toy.db))) "dreams"
  = [Some (VStr "u1")].
Proof.
  exact (proj1 (proj2 (proj1 (dream_update_object_body_keeps_owner [] "d1"
            toy_requester_bob)
            {[ "user_id" := VStr "u2"; "title" := VStr "mine now" ]})
          Toy.decode Toy.verify Toy.db)).
Defined.

(** X20. PUT /api/subscriptions/:id with a JSON object as body never
    changes the owner of a subscription: over the reference datastore the
    [user_id] column of [subscriptions] is the same after the request as
    before, whatever the object holds and whoever asks.  With a JSON array
    as body, [delete updates.user_id] removes nothing: the only mutation
    the handler can send is the update of that subscription with the array
    as it came. *)
Theorem subscription_update_object_body_keeps_owner :
  forall (errors : list string) (id : string) (req : Req),
    (forall (body : Row) (decode : string -> Decoded)
            (verify : string -> string -> bool) (db : Mem.Db),
        let db' := snd (fst (run (mkWorld decode verify Mem.store Mem.store_many)
                                 (Subscriptions.put errors id (JObject body) req) db)) in
        (fun r : Row => r !! "user_id") <$> Mem.table db' "subscriptions"
        = (fun r : Row => r !! "user_id") <$> Mem.table db "subscriptions") /\
    (forall (items : list Row) (S : Type) (w : World S) (s : S) (ev : Event),
        In ev (snd (run w (Subscriptions.put errors id (JArray items) req) s)) ->
        mutating ev = true ->
        ev = EvQuery (UpdateArray "subscriptions" items "id" (Some (VStr id)) true)).
Proof.
  intros errors id req. split.
  - intros body decode verify db db'. subst db'.
    unfold Subscriptions.put, handler.
    destruct errors as [|e errors]; simpl; [|reflexivity].
    destruct (Mem.single (List.filter _ (Mem.table db "subscriptions")))
      as [[sub|] [er|]]; simpl; try reflexivity.
    destruct (not_permitted (sub !! "user_id") req) as [e | [|]]; simpl;
      try reflexivity.
    match goal with
    | |- context [Mem.single ?l] => destruct (Mem.single l) as [dt [er|]]
    end; simpl.
    + rewrite table_insert_eq. apply patch_row_frame, lookup_delete_eq.
    + destruct (truthy (delete "user_id" body !! "tier")); simpl.
      * rewrite table_insert_ne by discriminate. rewrite table_insert_eq.
        apply patch_row_frame, lookup_delete_eq.
      * rewrite table_insert_eq. apply patch_row_frame, lookup_delete_eq.
  - intros items S w s ev. unfold Subscriptions.put, handler; simpl.
    crunch; intros Hin Hmut; repeat (destruct Hin as [<- | Hin]);
      try contradiction; try discriminate Hmut; reflexivity.
Qed.

Example subscription_update_array_body_changes_owner :
  (fun r : Row => r !! "user_id") <$>
    Mem.table
      (snd (fst (run Toy.world
                   (Subscriptions.put [] "s1" (JArray [ {[ "user_id" := VStr "u2" ]} ])
                      toy_requester_alice) Toy.db))) "subscriptions"
  = [Some (VStr "u2")].
Proof. reflexivity. Qed.

(** X21. POST /api/dreams with a valid body makes exactly one call, the
    insertion of a row into [dreams]; the row's [user_id] is the body's
    when that is truthy and the requester's [userId] otherwise, and every
    other field is the body's. *)
Theorem dream_create_defaults_owner :
  forall (S : Type) (w : World S) (s : S) (body : Row) (req : Req),
    exists row,
      snd (run w (DreamWrites.create [] body req) s)
        = [EvQuery (InsertReturning "dreams" row)] /\
      row !! "user_id" = js_or (body !! "user_id") (userId req) /\
      (forall k, k <> "user_id" -> row !! k = body !! k).
Proof.
  intros S w s body req. unfold DreamWrites.create, handler, js_or; simpl.
  destruct (truthy (body !! "user_id")) eqn:Ht; simpl.
  - exists body. destruct (store w s _) as [r s1]; simpl.
    split; [destruct (error r); reflexivity|]. split; [reflexivity|]. reflexivity.
  - exists (with_prop "user_id" (userId req) body).
    destruct (store w s _) as [r s1]; simpl.
    split; [destruct (error r); reflexivity|].
    unfold with_prop. destruct (userId req) as [x|]; split.
    + apply lookup_insert_eq.
    + intros k Hk. apply lookup_insert_ne; congruence.
    + apply lookup_delete_eq.
    + intros k Hk. apply lookup_delete_ne; congruence.
Qed.

(** X22. POST /api/dreams/save with a valid body: when neither the body's
    [userId] nor the requester's is truthy the reply is 400 and nothing is
    sent to the datastore; otherwise the one call is the insertion of a row
    that has no [userId] key, a truthy [user_id] (the body's [userId] first,
    the requester's otherwise), the body's [date] when truthy and [now]
    otherwise, and the body's value on every other key. *)
Theorem dream_save_row :
  forall (S : Type) (w : World S) (s : S) (now : string) (body : Row) (req : Req),
    let out := run w (DreamWrites.save now [] body req) s in
    let user_id := js_or (body !! "userId") (userId req) in
    (truthy user_id = false ->
     out = (Next (ApiError 400 "User ID is required"), s, [])) /\
    (truthy user_id = true ->
     exists row,
       snd out = [EvQuery (InsertReturning "dreams" row)] /\
       row !! "userId" = None /\
       row !! "user_id" = user_id /\
       row !! "date" = js_or (body !! "date") (Some (VStr now)) /\
       (forall k, k <> "userId" -> k <> "user_id" -> k <> "date" ->
                  row !! k = body !! k)).
Proof.
  intros S w s now body req. simpl. unfold DreamWrites.save, handler; simpl.
  split; intros Hu; rewrite Hu; simpl; [reflexivity|].
  eexists. destruct (store w s _) as [r s1]; simpl.
  split; [destruct (error r); reflexivity|].
  assert (Hd : exists d, js_or (delete "userId" body !! "date") (Some (VStr now)) = Some d).
  { unfold js_or. destruct (delete "userId" body !! "date") as [x|];
      [destruct (truthy (Some x)) | simpl]; eauto. }
  destruct Hd as [d Hd].
  assert (Hdate : js_or (delete "userId" body !! "date") (Some (VStr now))
                  = js_or (body !! "date") (Some (VStr now))).
  { rewrite lookup_delete_ne by discriminate. reflexivity. }
  destruct (js_or (body !! "userId") (userId req)) as [u|] eqn:Hjs;
    [|simpl in Hu; discriminate].
  rewrite Hd. unfold with_prop.
  split; [|split; [|split]].
  - rewrite !lookup_insert_ne by discriminate. apply lookup_delete_eq.
  - rewrite lookup_insert_ne by discriminate. apply lookup_insert_eq.
  - rewrite lookup_insert_eq. rewrite <- Hdate. symmetry. exact Hd.
  - intros k H1 H2 H3. rewrite !lookup_insert_ne by congruence.
    apply lookup_delete_ne; congruence.
Qed.

Lemma dream_save_row_witness :
  truthy (js_or (({[ "title" := VStr "sea" ]} : Row) !! "userId")
                (userId toy_requester_bob)) = true /\
  exists row,
    snd (run Toy.world
           (DreamWrites.save "2025-01-01T00:00:00.000Z" []
              {[ "title" := VStr "sea" ]} toy_requester_bob) Toy.db)
      = [EvQuery (InsertReturning "dreams" row)] /\
    row !! "user_id" = Some (VStr "u2").
Proof.
  assert (H : truthy (js_or (({[ "title" := VStr "sea" ]} : Row) !! "userId")
                            (userId toy_requester_bob)) = true) by reflexivity.
  split; [exact H|].
  destruct (proj2 (dream_save_row _ Toy.world Toy.db "2025-01-01T00:00:00.000Z"
                     {[ "title" := VStr "sea" ]} toy_requester_bob) H)
    as (row & Hev & _ & Hu & _).
  exists row. split; [exact Hev | exact Hu].
Defined.

(** X23. PUT /api/dreams/:id/comic writes one column: without a truthy
    [imageUrl] the reply is 400 and nothing is sent; otherwise, over the
    reference datastore, every column of [dreams] other than [image_url] is
    the same after the request as before, and no other table changes. *)
Theorem comic_update_writes_image_url_only :
  forall (decode : string -> Decoded) (verify : string -> string -> bool)
         (db : Mem.Db) (id : string) (body : Row) (req : Req),
    let w := mkWorld decode verify Mem.store Mem.store_many in
    let out := run w (DreamWrites.put_comic [] id body req) db in
    (truthy (body !! "imageUrl") = false ->
     out = (Next (ApiError 400 "Image URL is required"), db, [])) /\
    (forall k, k <> "image_url" ->
       (fun r : Row => r !! k) <$> Mem.table (snd (fst out)) "dreams"
       = (fun r : Row => r !! k) <$> Mem.table db "dreams") /\
    (forall t, t <> "dreams" -> snd (fst out) !! t = db !! t).
Proof.
  intros decode verify db id body req w out. subst w out.
  unfold DreamWrites.put_comic, handler; simpl.
  destruct (truthy (body !! "imageUrl")) eqn:Ht; simpl.
  - split; [discriminate|].
    match goal with
    | |- context [Mem.single ?l] => destruct (Mem.single l) as [dt [er|]]
    end; simpl; [|destruct dt; simpl].
    all: split; [intros k Hk | intros t Hne; apply lookup_insert_ne; congruence].
    all: rewrite table_insert_eq; apply patch_row_frame.
    all: unfold with_prop; destruct (body !! "imageUrl");
      [rewrite lookup_insert_ne by congruence; apply lookup_empty
      | rewrite lookup_delete_ne by congruence; apply lookup_empty].
  - split; [reflexivity|]. split; reflexivity.
Qed.

Lemma comic_update_witness :
  truthy (({[ "title" := VStr "x" ]} : Row) !! "imageUrl") = false /\
  run Toy.world (DreamWrites.put_comic [] "d1" {[ "title" := VStr "x" ]}
                   toy_requester_bob) Toy.db
  = (Next (ApiError 400 "Image URL is required"), Toy.db, []).
Proof.
  assert (H : truthy (({[ "title" := VStr "x" ]} : Row) !! "imageUrl") = false)
    by reflexivity.
  split; [exact H|].
  exact (proj1 (comic_update_writes_image_url_only Toy.decode Toy.verify Toy.db
                  "d1" {[ "title" := VStr "x" ]} toy_requester_bob) H).
Defined.

(* ===================================================================== *)
(** ** Further properties of the read handlers and lookups *)
(* ===================================================================== *)

(** What an accepted request looks like. *)
Lemma auth_accept_inv :
  forall (S : Type) (w : World S) (env : Env) (authHeader : option string) (s : S)
         (req' : Req),
    fst (fst (run w (auth env (fresh authHeader)) s)) = (req', None) ->
    exists token issuer subj u,
      bearer_of authHeader token /\
      verifies w env token issuer subj /\
      resolved w s subj u /\
      req' = mkReq authHeader (Some u) (u !! "id").
Proof.
  intros S w env authHeader s req'. unfold auth, fresh.
  crunch; intros Hacc; inversion Hacc; subst; clear Hacc;
    lazymatch goal with
    | Hh : (String.eqb ?h "" || negb (startsWith "Bearer " ?h)) = false,
      Ht : split _ ?h !! 1%nat = Some ?token,
      Hne : String.eqb ?token "" = false,
      Hd : jwt_decode _ ?token = DecObject ?payload,
      Hv : jwt_verify _ ?token ?secret = true,
      Hs : String.eqb ?secret "" = false,
      Hst : store _ _ (SelectSingle "profiles" "id" ?subj) = (?r, _),
      He : error ?r = None, Hdt : data ?r = Some ?u |- _ =>
        apply orb_false_elim in Hh; destruct Hh as [_ Hh];
        apply negb_false_iff in Hh;
        apply String.eqb_neq in Hne, Hs;
        exists token;
        match goal with
        | Hsub : truthy (payload !! "sub") = true |- _ => exists PlatformIssuer
        | Hsub : truthy (payload !! "sub") = false |- _ => exists LocalIssuer
        end;
        exists subj, u;
        split; [exists h; tauto|];
        split; [exists payload, secret;
                repeat (split; try assumption); constructor; assumption|];
        split; [unfold resolved; rewrite Hst; simpl; tauto | reflexivity]
    end.
Qed.

Lemma mem_single_inv (l : list Row) (u : Row) :
  data (Mem.single l) = Some u -> l = [u].
Proof.
  destruct l as [|r [|r' l]]; simpl; intros H; inversion H; reflexivity.
Qed.

Lemma filter_singleton_holds {A : Type} (f : A -> bool) (l : list A) (x : A) :
  List.filter f l = [x] -> f x = true.
Proof.
  intros H. assert (Hin : In x (List.filter f l)) by (rewrite H; left; reflexivity).
  apply filter_In in Hin. tauto.
Qed.

(** X24. GET /api/profile behind [auth], over the reference datastore:
    every accepted request is answered 200 with exactly the row the
    middleware attached as [req.user]. *)
Theorem own_profile_is_the_attached_user :
  forall (decode : string -> Decoded) (verify : string -> string -> bool)
         (env : Env) (authHeader : option string) (db : Mem.Db) (requester : Req),
    let w := mkWorld decode verify Mem.store Mem.store_many in
    fst (fst (run w (auth env (fresh authHeader)) db)) = (requester, None) ->
    is_Some (user requester) /\
    fst (fst (run w (route (auth env) Reads.profile (fresh authHeader)) db))
      = Respond 200 (BSuccessData (user requester)).
Proof.
  intros decode verify env authHeader db requester w Hacc.
  rewrite (route_passes decode verify env _ authHeader db requester Hacc).
  destruct (auth_accept_inv _ w env authHeader db requester Hacc)
    as (token & issuer & subj & u & _ & Hv & [_ Hd] & ->).
  destruct Hv as (payload & secret & _ & Hsel & _).
  simpl in Hd. pose proof (mem_single_inv _ _ Hd) as Hone.
  pose proof (filter_singleton_holds _ _ _ Hone) as Hm.
  assert (Htruthy : truthy subj = true) by (inversion Hsel; subst; assumption).
  destruct subj as [x|]; [|discriminate Hm]. simpl in Hm.
  apply bool_decide_eq_true_1 in Hm.
  split; [eexists; reflexivity|].
  unfold Reads.profile, handler; simpl. rewrite Hm, Htruthy; simpl.
  rewrite Hone. reflexivity.
Qed.

Lemma own_profile_witness :
  fst (fst (run Toy.world
              (auth Toy.env (fresh (Some "Bearer .u2.local-secret"))) Toy.db))
    = (toy_requester_bob, None) /\
  fst (fst (run Toy.world
              (route (auth Toy.env) Reads.profile
                     (fresh (Some "Bearer .u2.local-secret"))) Toy.db))
    = Respond 200 (BSuccessData (Some Toy.bob)).
Proof.
  split; [reflexivity|].
  exact (proj2
    (own_profile_is_the_attached_user Toy.decode Toy.verify Toy.env
       (Some "Bearer .u2.local-secret") Toy.db toy_requester_bob eq_refl)).
Defined.

(** [a || d] with a truthy [d] is a truthy value. *)
Lemma js_or_some (o : option JsVal) (d : JsVal) :
  truthy (Some d) = true ->
  exists v, js_or o (Some d) = Some v /\ truthy (Some v) = true.
Proof.
  intros Hd. unfold js_or. destruct (truthy o) eqn:Ho.
  - destruct o as [x|]; [exists x; split; [reflexivity | exact Ho] | discriminate Ho].
  - exists d. split; [reflexivity | exact Hd].
Qed.

(** X25. GET /api/subscriptions for a user without a subscription: when the
    lookup returns no row, with no error or with the "no rows" error
    PGRST116, and the profile lookup succeeds, the reply is 200 with a
    default subscription of that user, status "active", whose tier is the
    profile's tier when truthy and "free" otherwise. *)
Theorem missing_subscription_gets_default :
  forall (S : Type) (w : World S) (s s1 : S) (now1 now2 : string) (req : Req)
         (f : Resp),
    truthy (userId req) = true ->
    store w s (SelectSingle "subscriptions" "user_id" (userId req)) = (f, s1) ->
    data f = None ->
    (error f = None \/ exists e, error f = Some e /\ code e = "PGRST116") ->
    let p := fst (store w s1 (SelectSingle "profiles" "id" (userId req))) in
    error p = None ->
    exists row,
      fst (fst (run w (Reads.subscription now1 now2 req) s)) = Reads.SentRow 200 row /\
      row !! "user_id" = userId req /\
      row !! "status" = Some (VStr "active") /\
      row !! "tier" = js_or (data p ≫= (.!! "tier")) (Some (VStr "free")) /\
      truthy (row !! "tier") = true.
Proof.
  intros S w s s1 now1 now2 req f Ht Hst Hd Herr p Hp. subst p.
  assert (Hrow : forall prof : option Row,
    let row := Reads.defaultSubscription now1 now2 (userId req) prof in
    row !! "user_id" = userId req /\
    row !! "status" = Some (VStr "active") /\
    row !! "tier" = js_or (prof ≫= (.!! "tier")) (Some (VStr "free")) /\
    truthy (row !! "tier") = true).
  { intros prof row. subst row. unfold Reads.defaultSubscription.
    destruct (userId req) as [uid|]; [|discriminate Ht]. unfold with_prop.
    split; [apply lookup_insert_eq|].
    rewrite !lookup_insert_ne by discriminate.
    split; [reflexivity|].
    rewrite !lookup_insert_ne by discriminate. rewrite !lookup_insert_eq.
    destruct (js_or_some (prof ≫= (.!! "tier")) (VStr "free") eq_refl)
      as (v & Hv & Htv).
    rewrite Hv. simpl. split; [reflexivity | exact Htv]. }
  unfold Reads.subscription; simpl. rewrite Ht; simpl. rewrite Hst; simpl.
  rewrite Hd.
  assert (Hgo : forall k : Prog (Exn Reads.Sent),
    match error f with
    | Some e =>
        if negb (String.eqb (code e) "PGRST116")
        then throw (ApiError 500 ("Error fetching subscription: " ++ pg_message e))
        else k
    | None => k
    end = k).
  { intros k. destruct Herr as [-> | (e & -> & ->)]; reflexivity. }
  rewrite Hgo; simpl.
  destruct (store w s1 _) as [p s2]; simpl in *. rewrite Hp; simpl.
  eexists; split; [reflexivity | apply Hrow].
Qed.

Lemma missing_subscription_witness :
  truthy (userId toy_requester_bob) = true /\
  data (Mem.single (List.filter (Mem.matches "user_id" (Some (VStr "u2")))
                                (Mem.table Toy.db "subscriptions"))) = None /\
  exists row,
    fst (fst (run Toy.world
                (Reads.subscription "2025-01-01T00:00:00.000Z"
                   "2025-01-01T00:00:00.001Z" toy_requester_bob) Toy.db))
      = Reads.SentRow 200 row /\
    row !! "tier" = Some (VStr "free").
Proof.
  assert (Ht : truthy (userId toy_requester_bob) = true) by reflexivity.
  split; [exact Ht|]. split; [reflexivity|].
  assert (Herr :
    error (Mem.single (List.filter (Mem.matches "user_id" (Some (VStr "u2")))
                                   (Mem.table Toy.db "subscriptions"))) = None \/
    exists e,
      error (Mem.single (List.filter (Mem.matches "user_id" (Some (VStr "u2")))
                                     (Mem.table Toy.db "subscriptions"))) = Some e /\
      code e = "PGRST116").
  { right. exists Mem.PGRST116. split; reflexivity. }
  destruct (missing_subscription_gets_default _ Toy.world Toy.db Toy.db
              "2025-01-01T00:00:00.000Z" "2025-01-01T00:00:00.001Z"
              toy_requester_bob _ Ht eq_refl eq_refl Herr eq_refl)
    as (row & Hr & _ & _ & Htier & _).
  exists row. split; [exact Hr | exact Htier].
Defined.

(** X26. The read endpoints only read: whatever the datastore answers,
    GET /api/dreams, GET /api/dreams/:id, GET /api/dreams/video/:taskId,
    GET /api/profile and GET /api/subscriptions send it no insert, update
    or delete. *)
Theorem read_handlers_never_mutate :
  forall (S : Type) (w : World S) (s : S) (req : Req)
         (q : option string) (errors : list string) (id now1 now2 : string),
    List.filter mutating (snd (run w (Dreams.get_all q req) s)) = [] /\
    List.filter mutating (snd (run w (Dreams.get_by_id errors id req) s)) = [] /\
    List.filter mutating (snd (run w (Reads.video_status id req) s)) = [] /\
    List.filter mutating (snd (run w (Reads.profile req) s)) = [] /\
    List.filter mutating (snd (run w (Reads.subscription now1 now2 req) s)) = [].
Proof.
  intros S w s req q errors id now1 now2.
  repeat apply conj;
    unfold Dreams.get_all, Dreams.get_by_id, Reads.video_status, Reads.profile,
           Reads.subscription, handler;
    crunch; reflexivity.
Qed.

(** X27. The two user lookups differ on a missing row.  Over the reference
    datastore, [getUserByEmail] returns [null] when no row of [users] has
    the email, while [getUserById] throws when no row of [profiles] has the
    id. *)
Theorem missing_user_by_email_is_null_by_id_throws :
  forall (decode : string -> Decoded) (verify : string -> string -> bool)
         (db : Mem.Db) (email : string) (id : JsVal),
    let w := mkWorld decode verify Mem.store Mem.store_many in
    List.filter (Mem.matches "email" (Some (VStr email))) (Mem.table db "users") = [] ->
    List.filter (Mem.matches "id" (Some id)) (Mem.table db "profiles") = [] ->
    fst (fst (run w (getUserByEmail email) db)) = inr None /\
    exists err, fst (fst (run w (getUserById (Some id)) db)) = inl err /\
                errorHandler_status err = 500.
Proof.
  intros decode verify db email id w He Hi.
  unfold getUserByEmail, getUserById; simpl. rewrite He, Hi; simpl.
  split; [reflexivity|]. eexists; split; reflexivity.
Qed.

Lemma missing_user_lookups_witness :
  List.filter (Mem.matches "email" (Some (VStr "nobody@example.org")))
              (Mem.table Toy.db "users") = [] /\
  fst (fst (run Toy.world (getUserByEmail "nobody@example.org") Toy.db)) = inr None.
Proof.
  split; [reflexivity|].
  exact (proj1
    (missing_user_by_email_is_null_by_id_throws Toy.decode Toy.verify Toy.db
       "nobody@example.org" (VStr "u9") eq_refl eq_refl)).
Defined.
